(** * boomcatch: the waterfall-svg mapper

    A shallow embedding of [src/mappers/waterfall-svg/index.js] and the
    properties of its resource mapper, settings validation and chart
    geometry.

    Conventions of the embedding.
    - Timestamps and pixel sizes read from the input are integers ([Z]).
    - Values computed by JavaScript arithmetic that can leave the integers
      (a quotient, a remainder by zero, a difference with [undefined]) are
      of type [number]: exact rationals extended with the two infinities
      and [NaN].  Rounding of doubles and the sign of zero are not modelled.
    - A function that can throw returns a [result].
    - An object whose keys are enumerated is an association list in
      insertion order; a property read takes the first binding. *)

From Stdlib Require Import ZArith QArith Qround Qreduction Qcanon Qfield.
From Stdlib Require Import String List Bool Permutation Lia DecimalString.
Import ListNotations.

Local Open Scope string_scope.
Local Open Scope Z_scope.

(** ** JavaScript values and outcomes *)

Module Js.

(** The errors this module can raise.  [Error] is the plain [Error]
    thrown by [throw new Error(...)] and by check-types' [verify].
    [Unmodelled] is not a JavaScript error: it marks an input outside the
    data model (an array entry that is not a raw resource event), for
    which the embedding defines no behaviour. *)
Inductive error : Type :=
| TypeError
| RangeError
| Error (message : string)
| Unmodelled.

Inductive result (A : Type) : Type :=
| Ok (a : A)
| Err (e : error).
Arguments Ok {A} a.
Arguments Err {A} e.

Definition bind {A B} (r : result A) (k : A -> result B) : result B :=
  match r with
  | Ok a => k a
  | Err e => Err e
  end.

(** [Array.prototype.reduce] with a callback that can throw. *)
Fixpoint reduce {A B} (f : A -> B -> result A) (l : list B) (acc : A) : result A :=
  match l with
  | [] => Ok acc
  | x :: l' => bind (f acc x) (reduce f l')
  end.

(** [Array.prototype.map] over a dense array, callback can throw. *)
Fixpoint traverse {A B} (f : A -> result B) (l : list A) : result (list B) :=
  match l with
  | [] => Ok []
  | x :: l' => bind (f x) (fun y => bind (traverse f l') (fun ys => Ok (y :: ys)))
  end.

(** *** Numbers *)

Inductive number : Type :=
| Fin (q : Q)
| Inf (negative : bool)
| NaN.

(** Finite results are kept in lowest terms, so that equal numbers are
    equal terms. *)
Definition fin (q : Q) : number := Fin (Qred q).
Definition of_Z (z : Z) : number := Fin (inject_Z z).

Definition Qzero (q : Q) : bool := Qnum q =? 0.
Definition Qneg (q : Q) : bool := Qnum q <? 0.

(** Truncation toward zero, as in [%]. *)
Definition Qtrunc (q : Q) : Z := if Qneg q then Qceiling q else Qfloor q.

Definition add (a b : number) : number :=
  match a, b with
  | NaN, _ | _, NaN => NaN
  | Fin x, Fin y => fin (x + y)
  | Inf s, Inf t => if Bool.eqb s t then Inf s else NaN
  | Inf s, Fin _ | Fin _, Inf s => Inf s
  end.

Definition neg (a : number) : number :=
  match a with
  | NaN => NaN
  | Fin x => fin (- x)
  | Inf s => Inf (negb s)
  end.

Definition sub (a b : number) : number := add a (neg b).

Definition mul (a b : number) : number :=
  match a, b with
  | NaN, _ | _, NaN => NaN
  | Fin x, Fin y => fin (x * y)
  | Inf s, Inf t => Inf (xorb s t)
  | Inf s, Fin y | Fin y, Inf s => if Qzero y then NaN else Inf (xorb s (Qneg y))
  end.

Definition div (a b : number) : number :=
  match a, b with
  | NaN, _ | _, NaN => NaN
  | Fin x, Fin y =>
      if Qzero y then (if Qzero x then NaN else Inf (Qneg x))
      else fin (x / y)
  | Fin _, Inf _ => Fin 0
  | Inf s, Fin y => Inf (xorb s (Qneg y))
  | Inf _, Inf _ => NaN
  end.

(** The remainder [a % b]: the sign of the dividend, [NaN] for a zero
    divisor. *)
Definition rem (a b : number) : number :=
  match a, b with
  | NaN, _ | _, NaN => NaN
  | Inf _, _ => NaN
  | Fin x, Inf _ => Fin x
  | Fin x, Fin y =>
      if Qzero y then NaN
      else fin (x - y * inject_Z (Qtrunc (x / y)))
  end.

Definition Math_ceil (a : number) : number :=
  match a with
  | Fin x => of_Z (Qceiling x)
  | _ => a
  end.

(** [a === b] on numbers. *)
Definition strict_eq (a b : number) : bool :=
  match a, b with
  | Fin x, Fin y => Qeq_bool x y
  | Inf s, Inf t => Bool.eqb s t
  | _, _ => false
  end.

(** An absent property reads as [undefined], and [undefined] in
    arithmetic is [NaN]. *)
Definition ToNumber (p : option Z) : number :=
  match p with
  | Some z => of_Z z
  | None => NaN
  end.

(** *** Arrays with holes

    [new Array(len)] makes an array of [len] empty slots, or throws a
    [RangeError] when [len] is not an integer in [0, 2^32 - 1]. *)
Definition sparse (A : Type) : Type := list (option A).

Definition is_array_length (q : Q) : bool :=
  (Qden q =? 1)%positive && (0 <=? Qnum q) && (Qnum q <=? 4294967295).

Definition new_Array {A} (len : number) : result (sparse A) :=
  match len with
  | Fin q =>
      if is_array_length q then Ok (repeat None (Z.to_nat (Qnum q)))
      else Err RangeError
  | _ => Err RangeError
  end.

(** [arr[index] = v]; an index past the end extends the array with
    holes. *)
Fixpoint array_set {A} (arr : sparse A) (index : nat) (v : A) : sparse A :=
  match index, arr with
  | O, [] => [Some v]
  | O, _ :: rest => Some v :: rest
  | S i, [] => None :: array_set [] i v
  | S i, slot :: rest => slot :: array_set rest i v
  end.

(** [arr.forEach(callback)] where the callback may assign into [arr]:
    the length is read once, the indices are visited in ascending order
    and the callback runs only at indices that hold an element when
    they are visited; empty slots are skipped. *)
Fixpoint forEach_from {A} (callback : A -> nat -> sparse A -> sparse A)
         (remaining index : nat) (arr : sparse A) : sparse A :=
  match remaining with
  | O => arr
  | S n =>
      let arr' :=
        match nth_error arr index with
        | Some (Some element) => callback element index arr
        | _ => arr
        end in
      forEach_from callback n (S index) arr'
  end.

Definition forEach {A} (callback : A -> nat -> sparse A -> sparse A)
           (arr : sparse A) : sparse A :=
  forEach_from callback (List.length arr) 0%nat arr.

(** *** Untyped values (parsed JSON and property reads) *)

Set Warnings "-register-all".
Inductive value : Type :=
| VUndefined
| VNull
| VBool (b : bool)
| VNum (z : Z)
| VStr (s : string)
| VArr (elements : list value)
| VObj (fields : list (string * value)).

Fixpoint lookup {A} (key : string) (fields : list (string * A)) : option A :=
  match fields with
  | [] => None
  | (k, v) :: rest => if String.eqb k key then Some v else lookup key rest
  end.

Definition Object_keys {A} (fields : list (string * A)) : list string :=
  List.map fst fields.

(** [v.key] for a named property.  Reading a property of [undefined] or
    [null] throws; an absent property reads [undefined].  Only own
    properties and [length] are modelled (no array index is read by
    name in this module). *)
Definition get (v : value) (key : string) : result value :=
  match v with
  | VUndefined | VNull => Err TypeError
  | VObj fields =>
      Ok (match lookup key fields with Some x => x | None => VUndefined end)
  | VArr elements =>
      Ok (if String.eqb key "length" then VNum (Z.of_nat (List.length elements))
          else VUndefined)
  | VStr s =>
      Ok (if String.eqb key "length" then VNum (Z.of_nat (String.length s))
          else VUndefined)
  | VBool _ | VNum _ => Ok VUndefined
  end.

Definition Array_isArray (v : value) : bool :=
  match v with
  | VArr _ => true
  | _ => false
  end.

(** The decimal text of an array index, as string concatenation
    produces it. *)
Definition index_to_string (index : nat) : string :=
  NilZero.string_of_uint (Nat.to_uint index).

End Js.

Import Js.

Declare Scope js_scope.
Notation "x <- c ;; k" := (bind c (fun x => k))
  (at level 61, c at next level, right associativity) : js_scope.
Notation "c ;;; k" := (bind c (fun _ => k))
  (at level 61, right associativity) : js_scope.
Local Open Scope js_scope.

(** ** The resource mapper *)

Module Waterfall.

(** *** Data model *)

(** One entry of [resource.events]: [{start, end}]. *)
Record Event : Type := { ev_start : Z; ev_end : Z }.

(** [resource.timestamps]; [requestStart] may be absent. *)
Record Timestamps : Type :=
  { ts_start : Z; ts_fetchStart : Z; ts_requestStart : option Z }.

(** A raw resource event of the beacon's [restiming] array. *)
Record Resource : Type :=
  { res_name : string;
    res_type : string;
    timestamps : Timestamps;
    events : list (string * Event) }.

(** The object handed to [mapTiming]: it always has [start]; [end] and
    [duration] are present or not depending on the caller. *)
Record TimingSource : Type :=
  { src_start : Z; src_end : option Z; src_duration : option Z }.

Definition of_event (e : Event) : TimingSource :=
  {| src_start := ev_start e; src_end := Some (ev_end e); src_duration := None |}.

(** One entry of [timings].  [t_blocked] is [true] when the property
    [blocked] was set to [true], [false] when it is absent. *)
Record Timing : Type :=
  { t_name : string; t_start : Z; t_duration : number; t_blocked : bool }.

Record NormalizedResource : Type :=
  { nr_page : string;
    nr_name : string;
    nr_type : string;
    nr_start : Z;
    nr_duration : Z;
    nr_timings : list Timing }.

(** *** Functions, in the order of the source *)

(** [getResourceDuration (resource, duration, eventName)]: reading [.end]
    of an event that is not there throws. *)
Definition getResourceDuration (resource : Resource) (duration : Z)
           (eventName : string) : result Z :=
  match lookup eventName (events resource) with
  | None => Err TypeError
  | Some event =>
      let eventDuration := ev_end event - ts_start (timestamps resource) in
      if eventDuration >? duration then Ok eventDuration else Ok duration
  end.

(** The body of [mapTiming] for a truthy [event]. *)
Definition mapTiming_of (name : string) (event : TimingSource) : Timing :=
  {| t_name := name;
     t_start := src_start event;
     t_duration := sub (ToNumber (src_end event)) (of_Z (src_start event));
     t_blocked := false |}.

(** [mapTiming (name, event)]: with no event it calls itself once on
    [{ start: 0, end: 0 }]. *)
Definition mapTiming (name : string) (event : option TimingSource) : Timing :=
  match event with
  | Some e => mapTiming_of name e
  | None =>
      mapTiming_of name {| src_start := 0; src_end := Some 0; src_duration := None |}
  end.

Definition mapEvent (name : string) (resource : Resource) : Timing :=
  mapTiming name (option_map of_event (lookup name (events resource))).

(** Truthiness of [timestamps.requestStart]: present and not zero. *)
Definition truthy (p : option Z) : bool :=
  match p with
  | Some z => negb (z =? 0)
  | None => false
  end.

Definition mapRequestTiming (resource : Resource) : Timing :=
  let requestTiming :=
    match ts_requestStart (timestamps resource), lookup "response" (events resource) with
    | Some requestStart, Some response =>
        if truthy (Some requestStart)
        then Some {| src_start := requestStart;
                     src_end := Some (ev_start response);
                     src_duration := None |}
        else None
    | _, _ => None
    end in
  mapTiming "request" requestTiming.

(** [result.timings[0].blocked = true]. *)
Definition set_blocked_first (timings : list Timing) : result (list Timing) :=
  match timings with
  | first :: rest =>
      Ok ({| t_name := t_name first; t_start := t_start first;
             t_duration := t_duration first; t_blocked := true |} :: rest)
  | [] => Err TypeError
  end.

Definition mapResource (referer : string) (resource : Resource)
  : result NormalizedResource :=
  duration <- reduce (getResourceDuration resource)
                     (Object_keys (events resource))
                     (ts_fetchStart (timestamps resource)
                      - ts_start (timestamps resource)) ;;
  timings <- set_blocked_first
    [ mapTiming "blocked"
        (Some {| src_start := ts_start (timestamps resource);
                 src_end := None;
                 src_duration := Some duration |});
      mapEvent "redirect" resource;
      mapEvent "dns" resource;
      mapEvent "connect" resource;
      mapRequestTiming resource;
      mapEvent "response" resource ] ;;
  Ok {| nr_page := referer;
        nr_name := res_name resource;
        nr_type := res_type resource;
        nr_start := ts_start (timestamps resource);
        nr_duration := duration;
        nr_timings := timings |}.

(** The resource of the specification's worked example. *)
Definition example_resource : Resource :=
  {| res_name := "http://example.com/app.js";
     res_type := "script";
     timestamps := {| ts_start := 100; ts_fetchStart := 120;
                      ts_requestStart := Some 140 |};
     events := [ ("dns", {| ev_start := 105; ev_end := 115 |});
                 ("response", {| ev_start := 150; ev_end := 200 |}) ] |}.


(** The typed view of an array entry as a raw resource event: an object
    with string [name] and [type], integer [timestamps.start] and
    [timestamps.fetchStart], an integer or absent
    [timestamps.requestStart], and an [events] object of
    [{start, end}] records. *)
Definition as_Z (v : value) : option Z :=
  match v with VNum z => Some z | _ => None end.

Definition as_string (v : value) : option string :=
  match v with VStr s => Some s | _ => None end.

Definition field (fields : list (string * value)) (key : string) : value :=
  match lookup key fields with Some v => v | None => VUndefined end.

Definition as_event (v : value) : option Event :=
  match v with
  | VObj fields =>
      match as_Z (field fields "start"), as_Z (field fields "end") with
      | Some s, Some e => Some {| ev_start := s; ev_end := e |}
      | _, _ => None
      end
  | _ => None
  end.

Fixpoint as_events (fields : list (string * value)) : option (list (string * Event)) :=
  match fields with
  | [] => Some []
  | (k, v) :: rest =>
      match as_event v, as_events rest with
      | Some e, Some es => Some ((k, e) :: es)
      | _, _ => None
      end
  end.

Definition as_timestamps (v : value) : option Timestamps :=
  match v with
  | VObj fields =>
      match as_Z (field fields "start"), as_Z (field fields "fetchStart"),
            field fields "requestStart" with
      | Some s, Some f, VUndefined =>
          Some {| ts_start := s; ts_fetchStart := f; ts_requestStart := None |}
      | Some s, Some f, VNum r =>
          Some {| ts_start := s; ts_fetchStart := f; ts_requestStart := Some r |}
      | _, _, _ => None
      end
  | _ => None
  end.

Definition as_resource (v : value) : option Resource :=
  match v with
  | VObj fields =>
      match as_string (field fields "name"), as_string (field fields "type"),
            as_timestamps (field fields "timestamps"), field fields "events" with
      | Some n, Some t, Some ts, VObj evs =>
          match as_events evs with
          | Some es =>
              Some {| res_name := n; res_type := t; timestamps := ts; events := es |}
          | None => None
          end
      | _, _, _, _ => None
      end
  | _ => None
  end.

(** *** Settings *)

Record Colour : Type := { c_name : string; c_value : string; c_fg : string }.

(** The settings object once validated.  [offset.y] is kept as read,
    since nothing checks it.  The derived [xAxis] (a division by 1.8 and
    arithmetic on the unchecked [offset.y]) is left out: no function below
    reads it. *)
Record Settings : Type :=
  { width : Z;
    offset_x : Z;
    offset_y : value;
    barHeight : Z;
    padding : Z;
    colours : list Colour;
    resourceHeight : Z;
    barPadding : Z }.

(** Modelled from the spec: the predicates of check-types, a dependency
    that is not under src/.  A positive number, an object (neither [null]
    nor an array), an array, a non-empty string; [verify] throws a plain
    [Error] with the given message when the predicate fails. *)
Definition positiveNumber (v : value) : bool :=
  match v with VNum z => 0 <? z | _ => false end.

Definition object (v : value) : bool :=
  match v with VObj _ => true | _ => false end.

Definition array (v : value) : bool := Array_isArray v.

Definition unemptyString (v : value) : bool :=
  match v with VStr s => negb (String.eqb s "") | _ => false end.

Definition verify (holds : bool) (message : string) : result unit :=
  if holds then Ok tt else Err (Error message).

Definition indexed (prefix : string) (index : nat) : string :=
  String.append prefix (String.append (index_to_string index) "]").

(** The callback of [settings.colours.forEach]. *)
Definition verifyColour (colour : value) (index : nat) : result unit :=
  verify (object colour) (indexed "Invalid SVG colour [" index) ;;;
  name <- get colour "name" ;;
  verify (unemptyString name) (indexed "Invalid SVG colour name [" index) ;;;
  v <- get colour "value" ;;
  verify (unemptyString v) (indexed "Invalid SVG colour value [" index) ;;;
  fg <- get colour "fg" ;;
  verify (unemptyString fg) (indexed "Invalid SVG foreground colour [" index).

Fixpoint verifyColours (elements : list value) (index : nat) : result unit :=
  match elements with
  | [] => Ok tt
  | colour :: rest => verifyColour colour index ;;; verifyColours rest (S index)
  end.

Definition verifySettings (settings : value) : result unit :=
  w <- get settings "width" ;;
  verify (positiveNumber w) "Invalid SVG width" ;;;
  offset <- get settings "offset" ;;
  verify (object offset) "Invalid SVG offset" ;;;
  x <- get offset "x" ;;
  verify (positiveNumber x) "Invalid SVG x offset" ;;;
  x' <- get offset "x" ;;
  verify (positiveNumber x') "Invalid SVG y offset" ;;;
  bh <- get settings "barHeight" ;;
  verify (positiveNumber bh) "Invalid SVG bar height" ;;;
  pad <- get settings "padding" ;;
  verify (positiveNumber pad) "Invalid SVG padding" ;;;
  cs <- get settings "colours" ;;
  verify (array cs) "Invalid SVG colours" ;;;
  match cs with
  | VArr elements =>
      if negb (Z.of_nat (List.length elements) =? 6)
      then Err (Error "Incorrect number of SVG colours")
      else verifyColours elements 0%nat
  | _ => Err TypeError
  end.

Definition number_of (v : value) : Z :=
  match v with VNum z => z | _ => 0 end.

Definition string_of (v : value) : string :=
  match v with VStr s => s | _ => "" end.

Definition property (v : value) (key : string) : value :=
  match get v key with Ok x => x | Err _ => VUndefined end.

Definition colour_of (v : value) : Colour :=
  {| c_name := string_of (property v "name");
     c_value := string_of (property v "value");
     c_fg := string_of (property v "fg") |}.

Definition elements_of (v : value) : list value :=
  match v with VArr l => l | _ => [] end.

(** [getSettings], from the point where the settings file has been
    loaded: validation first, then the derived fields.  The readers
    [number_of], [string_of] and [elements_of] are applied to validated
    fields only. *)
Definition getSettings (settings : value) : result Settings :=
  verifySettings settings ;;;
  let p := number_of (property settings "padding") in
  let bh := number_of (property settings "barHeight") in
  Ok {| width := number_of (property settings "width");
        offset_x := number_of (property (property settings "offset") "x");
        offset_y := property (property settings "offset") "y";
        barHeight := bh;
        padding := p;
        colours := List.map colour_of (elements_of (property settings "colours"));
        resourceHeight := bh + p;
        barPadding := p / 2 |}.

(** *** Chart geometry *)

Record Tick : Type := { tick_x : number; tick_height : Z; tick_value : number }.

Definition getSvgHeight (settings : Settings) (resources : list NormalizedResource) : Z :=
  (Z.of_nat (List.length resources) + 1) * (barHeight settings + padding settings)
  + offset_x settings.

Definition getMaximumValue (maximum : Z) (resource : NormalizedResource) : Z :=
  let e := nr_start resource + nr_duration resource in
  if e >? maximum then e else maximum.

(** The inner function of [getSvgTicks]; [minimum] and [pixelsPerUnit]
    are the variables of the enclosing call as they stand when the
    callback runs. *)
Definition getXPosition (minimum pixelsPerUnit v : number) : number :=
  if strict_eq v (of_Z 0) then of_Z 0
  else mul (sub v minimum) pixelsPerUnit.

Definition getSvgTicks (settings : Settings) (resources : list NormalizedResource)
  : result (sparse Tick) :=
  match resources with
  | [] => Err TypeError
  | first :: _ =>
      let minimum := of_Z (nr_start first) in
      let maximum := of_Z (fold_left getMaximumValue resources 0) in
      let step := Math_ceil (div (sub maximum minimum) (of_Z 5)) in
      let maximum := add maximum (sub step (rem maximum step)) in
      let minimum := sub minimum (rem minimum step) in
      let difference := sub maximum minimum in
      let w := of_Z (width settings - offset_x settings) in
      let height :=
        Z.of_nat (List.length resources) * (barHeight settings + padding settings) in
      let pixelsPerUnit := div w difference in
      ticks <- new_Array (div difference step) ;;
      Ok (forEach
            (fun _ index ticks =>
               let v := mul (of_Z (Z.of_nat index)) step in
               array_set ticks index
                 {| tick_x := getXPosition minimum pixelsPerUnit v;
                    tick_height := height;
                    tick_value := v |})
            ticks)
  end.

(** [mapSvgResource] has an empty body: it returns [undefined]. *)
Definition mapSvgResource (settings : Settings) (resource : NormalizedResource)
           (index : nat) : unit := tt.

Fixpoint mapi {A B} (f : A -> nat -> B) (l : list A) (index : nat) : list B :=
  match l with
  | [] => []
  | x :: rest => f x index :: mapi f rest (S index)
  end.

(** The copy of the settings with the three computed fields. *)
Record SvgSettings : Type :=
  { svg_settings : Settings;
    svg_height : Z;
    svg_ticks : sparse Tick;
    svg_resources : list unit }.

Definition customiseSvgSettings (settings : Settings)
           (resources : list NormalizedResource) : result SvgSettings :=
  let height := getSvgHeight settings resources in
  ticks <- getSvgTicks settings resources ;;
  Ok {| svg_settings := settings;
        svg_height := height;
        svg_ticks := ticks;
        svg_resources := mapi (mapSvgResource settings) resources 0%nat |}.

(** The object handed to the compiled template. *)
Record RenderModel : Type :=
  { svg : SvgSettings; details : list NormalizedResource }.

(** [map (template, settings, data, referer)].  The template is the
    compiled Handlebars function, a parameter here. *)
Definition map (template : RenderModel -> result string) (settings : Settings)
           (data : value) (referer : string) : result string :=
  restiming <- get data "restiming" ;;
  if negb (Array_isArray restiming) then Ok ""
  else
    resources <- traverse
      (fun entry =>
         match as_resource entry with
         | Some resource => mapResource referer resource
         | None => Err Unmodelled
         end)
      (elements_of restiming) ;;
    s <- customiseSvgSettings settings resources ;;
    template {| svg := s; details := resources |}.




(** [initialise (options)], from the point where the template has been
    compiled and the settings file loaded: [map] bound to the template and
    the validated settings. *)
Definition initialise (template : RenderModel -> result string) (loaded : value)
  : result (value -> string -> result string) :=
  settings <- getSettings loaded ;;
  Ok (map template settings).

End Waterfall.

Import Waterfall.

(** ** Vocabulary of the statements *)

(** The zero-length segment at time 0 that stands for an absent event. *)
Definition placeholder (name : string) : Timing :=
  {| t_name := name; t_start := 0; t_duration := of_Z 0; t_blocked := false |}.

(** The six segment names, in the order of the [timings] array. *)
Definition timing_names : list string :=
  ["blocked"; "redirect"; "dns"; "connect"; "request"; "response"].

(** The four segments copied from [events]. *)
Definition event_names : list string :=
  ["redirect"; "dns"; "connect"; "response"].

(** Where the fold of [mapResource] starts. *)
Definition base_duration (resource : Resource) : Z :=
  ts_fetchStart (timestamps resource) - ts_start (timestamps resource).

(** A template that always throws: mapping work, had it been done,
    would show. *)
Definition failing_template (model : RenderModel) : result string :=
  Err (Error "template called").

(** Sample settings, as a parsed settings file. *)
Definition colour_json (name v fg : value) : value :=
  VObj [("name", name); ("value", v); ("fg", fg)].

Definition good_colour : value :=
  colour_json (VStr "blocked") (VStr "#cccccc") (VStr "#000000").

Definition settings_json (w offset bh pad cs : value) : value :=
  VObj [("width", w); ("offset", offset); ("barHeight", bh);
        ("padding", pad); ("colours", cs)].

Definition good_offset : value := VObj [("x", VNum 10); ("y", VNum 40)].

Definition good_settings : value :=
  settings_json (VNum 960) good_offset (VNum 20) (VNum 4)
                (VArr (repeat good_colour 6)).

(** The same settings once validated. *)
Definition sample_settings : Settings :=
  {| width := 960; offset_x := 10; offset_y := VNum 40; barHeight := 20;
     padding := 4; colours := List.map colour_of (repeat good_colour 6);
     resourceHeight := 24; barPadding := 2 |}.

(** A normalized resource reduced to what the geometry reads. *)
Definition bar (start duration : Z) : NormalizedResource :=
  {| nr_page := "page"; nr_name := "bar"; nr_type := "script";
     nr_start := start; nr_duration := duration; nr_timings := [] |}.

(** What the checks of [verifySettings] ask of each field, in its
    order. *)
Definition width_ok (s : value) : Prop :=
  positiveNumber (property s "width") = true.

Definition offset_ok (s : value) : Prop :=
  object (property s "offset") = true
  /\ positiveNumber (property (property s "offset") "x") = true.

Definition barHeight_ok (s : value) : Prop :=
  positiveNumber (property s "barHeight") = true.

Definition padding_ok (s : value) : Prop :=
  positiveNumber (property s "padding") = true.

Definition colour_ok (c : value) : Prop :=
  object c = true
  /\ unemptyString (property c "name") = true
  /\ unemptyString (property c "value") = true
  /\ unemptyString (property c "fg") = true.

(** Validation fails with this message, and so does loading: no settings
    object comes back. *)
Definition rejects_with (s : value) (message : string) : Prop :=
  verifySettings s = Err (Error message)
  /\ getSettings s = Err (Error message).

Definition rejected (s : value) : Prop :=
  exists e, verifySettings s = Err e /\ getSettings s = Err e.

(** A colour entry without [fg], and a palette of six with that entry at
    index 2. *)
Definition colour_without_fg : value :=
  VObj [("name", VStr "dns"); ("value", VStr "#1f7c83")].

Definition palette_missing_fg : list value :=
  [good_colour; good_colour; colour_without_fg; good_colour; good_colour;
   good_colour].

(** The variables of [getSvgTicks] on integer inputs: the first start,
    the fold of [getMaximumValue] from 0, the step, and the two bounds
    after [maximum += step - (maximum % step)] and
    [minimum -= minimum % step]. *)
Definition end_of (resource : NormalizedResource) : Z :=
  nr_start resource + nr_duration resource.

Definition chart_minimum (resources : list NormalizedResource) : Z :=
  match resources with
  | first :: _ => nr_start first
  | [] => 0
  end.

Definition chart_maximum (resources : list NormalizedResource) : Z :=
  fold_left getMaximumValue resources 0.

Definition ceil_div (a b : Z) : Z := - ((- a) / b).

Definition chart_step (resources : list NormalizedResource) : Z :=
  ceil_div (chart_maximum resources - chart_minimum resources) 5.

Definition rounded_maximum (resources : list NormalizedResource) : Z :=
  chart_maximum resources
  + (chart_step resources - Z.rem (chart_maximum resources) (chart_step resources)).

Definition rounded_minimum (resources : list NormalizedResource) : Z :=
  chart_minimum resources
  - Z.rem (chart_minimum resources) (chart_step resources).

(** The tick count in the words of the specification: the maximum is the
    largest [start + duration], it is rounded up and the minimum rounded
    down to the nearest multiple of the step. *)
Definition latest_end (first : NormalizedResource) (rest : list NormalizedResource) : Z :=
  fold_left (fun m r => Z.max m (end_of r)) rest (end_of first).

Definition round_up_to_multiple (v step : Z) : Z := step * ceil_div v step.

Definition round_down_to_multiple (v step : Z) : Z := step * (v / step).

Definition specified_tick_count (first : NormalizedResource)
           (rest : list NormalizedResource) : Z :=
  let minimum := nr_start first in
  let maximum := latest_end first rest in
  let step := ceil_div (maximum - minimum) 5 in
  (round_up_to_multiple maximum step - round_down_to_multiple minimum step) / step.

(** The example resource as it arrives in a beacon, and a payload that
    carries it. *)
Definition example_resource_json : value :=
  VObj [("name", VStr "http://example.com/app.js");
        ("type", VStr "script");
        ("timestamps",
         VObj [("start", VNum 100); ("fetchStart", VNum 120);
               ("requestStart", VNum 140)]);
        ("events",
         VObj [("dns", VObj [("start", VNum 105); ("end", VNum 115)]);
               ("response", VObj [("start", VNum 150); ("end", VNum 200)])])].

Definition example_payload : value :=
  VObj [("restiming", VArr [example_resource_json])].

(** The length handed to [new Array] by [getSvgTicks]:
    [difference / step]. *)
Definition slot_count (resources : list NormalizedResource) : number :=
  let minimum := of_Z (chart_minimum resources) in
  let maximum := of_Z (chart_maximum resources) in
  let step := Math_ceil (div (sub maximum minimum) (of_Z 5)) in
  let maximum := add maximum (sub step (rem maximum step)) in
  let minimum := sub minimum (rem minimum step) in
  div (sub maximum minimum) step.

(** A raw resource event as a beacon carries it. *)
Definition event_json (e : Event) : value :=
  VObj [("start", VNum (ev_start e)); ("end", VNum (ev_end e))].

Definition timestamps_json (ts : Timestamps) : value :=
  VObj (("start", VNum (ts_start ts))
        :: ("fetchStart", VNum (ts_fetchStart ts))
        :: match ts_requestStart ts with
           | Some r => [("requestStart", VNum r)]
           | None => []
           end).

Definition events_json (es : list (string * Event)) : list (string * value) :=
  List.map (fun kv => (fst kv, event_json (snd kv))) es.

Definition resource_json (r : Resource) : value :=
  VObj [("name", VStr (res_name r));
        ("type", VStr (res_type r));
        ("timestamps", timestamps_json (timestamps r));
        ("events", VObj (events_json (events r)))].

(** A resource with one more event, added last. *)
Definition with_event (r : Resource) (k : string) (e : Event) : Resource :=
  {| res_name := res_name r;
     res_type := res_type r;
     timestamps := timestamps r;
     events := events r ++ [(k, e)] |}.

(** A resource fetched in no time: no events, [fetchStart] at [start]. *)
Definition instant_resource (name type : string) (start : Z) : Resource :=
  {| res_name := name;
     res_type := type;
     timestamps := {| ts_start := start; ts_fetchStart := start;
                      ts_requestStart := None |};
     events := [] |}.

(** ** Facts about the runtime model *)

Section NumberFacts.

Lemma Qred_inject_Z (z : Z) : Qred (inject_Z z) = inject_Z z.
Proof.
  apply Qred_identity. simpl. apply Z.gcd_1_r.
Qed.

Lemma fin_of_Z (q : Q) (z : Z) : q == inject_Z z -> fin q = of_Z z.
Proof.
  intros H. unfold fin, of_Z. f_equal.
  rewrite (Qred_complete _ _ H). apply Qred_inject_Z.
Qed.

Lemma add_of_Z (a b : Z) : add (of_Z a) (of_Z b) = of_Z (a + b).
Proof.
  simpl. apply fin_of_Z. now rewrite inject_Z_plus.
Qed.

Lemma neg_of_Z (a : Z) : neg (of_Z a) = of_Z (- a).
Proof.
  simpl. apply fin_of_Z. now rewrite inject_Z_opp.
Qed.

Lemma sub_of_Z (a b : Z) : sub (of_Z a) (of_Z b) = of_Z (a - b).
Proof.
  unfold sub. rewrite neg_of_Z, add_of_Z. reflexivity.
Qed.

Lemma sub_undefined (a : Z) : sub (ToNumber None) (of_Z a) = NaN.
Proof. reflexivity. Qed.

Lemma of_Z_inj (a b : Z) : of_Z a = of_Z b -> a = b.
Proof.
  unfold of_Z, inject_Z. intros H. now inversion H.
Qed.

End NumberFacts.

Section ObjectFacts.

Context {A : Type}.

Lemma lookup_in_keys (fields : list (string * A)) (k : string) :
  In k (Object_keys fields) <-> exists v, lookup k fields = Some v.
Proof.
  induction fields as [|[k0 v0] rest IH]; simpl.
  - split; [tauto | intros [v H]; discriminate].
  - destruct (String.eqb_spec k0 k) as [->|Hne].
    + split; eauto.
    + rewrite IH. split; [intros [H|H]; [contradiction | exact H] | auto].
Qed.

End ObjectFacts.

(** ** The duration fold *)

Section Duration.

Variable resource : Resource.

Let origin : Z := ts_start (timestamps resource).

(** One step of the fold is a maximum. *)
Lemma getResourceDuration_max (d : Z) (k : string) (e : Event) :
  lookup k (events resource) = Some e ->
  getResourceDuration resource d k = Ok (Z.max d (ev_end e - origin)).
Proof.
  intros H. unfold getResourceDuration. rewrite H. subst origin.
  destruct (Z.gtb_spec (ev_end e - ts_start (timestamps resource)) d);
    f_equal; lia.
Qed.

Lemma getResourceDuration_absent (d : Z) (k : string) :
  lookup k (events resource) = None ->
  getResourceDuration resource d k = Err TypeError.
Proof.
  intros H. unfold getResourceDuration. now rewrite H.
Qed.

(** Two steps commute, whatever the keys. *)
Lemma getResourceDuration_swap (d : Z) (x y : string) :
  bind (getResourceDuration resource d x)
       (fun d' => getResourceDuration resource d' y)
  = bind (getResourceDuration resource d y)
         (fun d' => getResourceDuration resource d' x).
Proof.
  destruct (lookup x (events resource)) as [ex|] eqn:Hx;
    destruct (lookup y (events resource)) as [ey|] eqn:Hy.
  - rewrite (getResourceDuration_max d x ex Hx), (getResourceDuration_max d y ey Hy).
    simpl.
    rewrite (getResourceDuration_max _ y ey Hy), (getResourceDuration_max _ x ex Hx).
    f_equal. lia.
  - rewrite (getResourceDuration_max d x ex Hx), (getResourceDuration_absent d y Hy).
    simpl. now rewrite getResourceDuration_absent.
  - rewrite (getResourceDuration_absent d x Hx), (getResourceDuration_max d y ey Hy).
    simpl. now rewrite getResourceDuration_absent.
  - now rewrite !getResourceDuration_absent.
Qed.

Lemma reduce_duration_perm (ks ks' : list string) :
  Permutation ks ks' ->
  forall d, reduce (getResourceDuration resource) ks d
            = reduce (getResourceDuration resource) ks' d.
Proof.
  induction 1 as [|x l l' _ IH|x y l|l l' l'' _ IH1 _ IH2]; intros d; simpl.
  - reflexivity.
  - destruct (getResourceDuration resource d x); simpl; auto.
  - pose proof (getResourceDuration_swap d y x) as H.
    destruct (getResourceDuration resource d y) as [dy|ey];
      destruct (getResourceDuration resource d x) as [dx|ex]; simpl in *.
    + destruct (getResourceDuration resource dy x);
        destruct (getResourceDuration resource dx y); simpl; congruence.
    + destruct (getResourceDuration resource dy x); simpl; congruence.
    + destruct (getResourceDuration resource dx y); simpl; congruence.
    + congruence.
  - now rewrite IH1.
Qed.

(** Over keys that are all bound, the fold returns, and what it returns
    is the largest of the starting value and the spans of those keys. *)
Lemma reduce_duration_spec (ks : list string) :
  (forall k, In k ks -> exists e, lookup k (events resource) = Some e) ->
  forall d, exists r,
    reduce (getResourceDuration resource) ks d = Ok r
    /\ d <= r
    /\ (forall k e, In k ks -> lookup k (events resource) = Some e ->
                    ev_end e - origin <= r)
    /\ (r = d \/ exists k e, In k ks /\ lookup k (events resource) = Some e
                             /\ r = ev_end e - origin).
Proof.
  induction ks as [|k ks IH]; intros Hall d; simpl.
  - exists d. repeat split; [lia | intros ? ? [] | now left].
  - destruct (Hall k (or_introl eq_refl)) as [e He].
    rewrite (getResourceDuration_max d k e He). simpl.
    destruct (IH (fun k' H => Hall k' (or_intror H)) (Z.max d (ev_end e - origin)))
      as (r & Hr & Hle & Hall' & Hwit).
    exists r. split; [exact Hr|]. split; [lia|]. split.
    + intros k' e' [<-|Hin] Hk'.
      * rewrite He in Hk'. injection Hk' as <-. lia.
      * eauto.
    + destruct Hwit as [->|(k' & e' & Hin & Hk' & ->)].
      * destruct (Z.max_spec d (ev_end e - origin)) as [[_ ->]|[_ ->]].
        -- right. exists k, e. auto.
        -- now left.
      * right. exists k', e'. auto.
Qed.

End Duration.

(** [mapResource] always returns, and its fields are these. *)
Lemma mapResource_returns (referer : string) (resource : Resource) :
  exists duration,
    reduce (getResourceDuration resource) (Object_keys (events resource))
           (ts_fetchStart (timestamps resource) - ts_start (timestamps resource))
    = Ok duration
    /\ mapResource referer resource
       = Ok {| nr_page := referer;
               nr_name := res_name resource;
               nr_type := res_type resource;
               nr_start := ts_start (timestamps resource);
               nr_duration := duration;
               nr_timings :=
                 [ {| t_name := "blocked";
                      t_start := ts_start (timestamps resource);
                      t_duration := NaN;
                      t_blocked := true |};
                   mapEvent "redirect" resource;
                   mapEvent "dns" resource;
                   mapEvent "connect" resource;
                   mapRequestTiming resource;
                   mapEvent "response" resource ] |}.
Proof.
  destruct (reduce_duration_spec resource (Object_keys (events resource))
              (fun k H => proj1 (lookup_in_keys _ k) H)
              (ts_fetchStart (timestamps resource) - ts_start (timestamps resource)))
    as (r & Hr & _).
  exists r. split; [exact Hr|].
  unfold mapResource. rewrite Hr. reflexivity.
Qed.

(** ** The resource mapper: properties *)

(** C1: for every raw resource event, [mapResource] returns a resource
    whose duration is the maximum of [fetchStart - start] and of
    [e.end - start] over the events [e] present: it is at least each of
    them and equal to one of them.  On the example of the specification
    the duration is 100. *)
Theorem mapResource_duration_max :
  (forall (referer : string) (resource : Resource),
     exists n,
       mapResource referer resource = Ok n
       /\ base_duration resource <= nr_duration n
       /\ (forall k e, lookup k (events resource) = Some e ->
                       ev_end e - ts_start (timestamps resource) <= nr_duration n)
       /\ (nr_duration n = base_duration resource
           \/ exists k e, lookup k (events resource) = Some e
                          /\ nr_duration n = ev_end e - ts_start (timestamps resource)))
  /\ (exists n, mapResource "page" example_resource = Ok n /\ nr_duration n = 100).
Proof.
  split.
  - intros referer resource.
    destruct (mapResource_returns referer resource) as (d & Hd & Hmap).
    destruct (reduce_duration_spec resource (Object_keys (events resource))
                (fun k H => proj1 (lookup_in_keys _ k) H) (base_duration resource))
      as (r & Hr & Hle & Hall & Hwit).
    unfold base_duration in Hr. rewrite Hd in Hr. injection Hr as <-.
    eexists. split; [exact Hmap|]. simpl. split; [exact Hle|]. split.
    + intros k e He. apply (Hall k e); [|exact He].
      apply lookup_in_keys. eauto.
    + destruct Hwit as [?|(k & e & _ & He & ?)]; [now left|].
      right. exists k, e. auto.
  - eexists. split; reflexivity.
Qed.

Lemma mapResource_duration_max_witness :
  exists n, mapResource "page" example_resource = Ok n
            /\ 200 - 100 <= nr_duration n.
Proof.
  destruct (proj1 mapResource_duration_max "page" example_resource)
    as (n & Hn & _ & Hall & _).
  exists n. split; [exact Hn|].
  apply (Hall "response" {| ev_start := 150; ev_end := 200 |}). reflexivity.
Defined.

(** C10: the duration that [mapResource] computes does not depend on the
    order in which the keys of [events] are enumerated: the fold over any
    permutation of the key sequence, from [fetchStart - start], returns
    the same duration. *)
Theorem duration_order_independent
        (referer : string) (resource : Resource) (ks : list string) :
  Permutation ks (Object_keys (events resource)) ->
  exists n,
    mapResource referer resource = Ok n
    /\ reduce (getResourceDuration resource) ks (base_duration resource)
       = Ok (nr_duration n).
Proof.
  intros Hperm.
  destruct (mapResource_returns referer resource) as (d & Hd & Hmap).
  eexists. split; [exact Hmap|]. simpl.
  rewrite (reduce_duration_perm resource _ _ Hperm). exact Hd.
Qed.

Lemma duration_order_independent_witness :
  exists n,
    mapResource "page" example_resource = Ok n
    /\ reduce (getResourceDuration example_resource) ["response"; "dns"]
              (base_duration example_resource)
       = Ok (nr_duration n).
Proof.
  apply (duration_order_independent "page" example_resource ["response"; "dns"]).
  simpl. apply perm_swap.
Defined.

Lemma mapTiming_name (name : string) (event : option TimingSource) :
  t_name (mapTiming name event) = name.
Proof. now destruct event. Qed.

Lemma mapTiming_not_blocked (name : string) (event : option TimingSource) :
  t_blocked (mapTiming name event) = false.
Proof. now destruct event. Qed.

Lemma mapEvent_absent (name : string) (resource : Resource) :
  lookup name (events resource) = None ->
  mapEvent name resource = placeholder name.
Proof.
  intros H. unfold mapEvent. rewrite H. reflexivity.
Qed.

(** C2: the [timings] array of the resource returned by [mapResource] has
    exactly six entries, named blocked, redirect, dns, connect, request,
    response in that order, and each of redirect, dns, connect, response
    whose event is absent is the placeholder with start 0 and duration
    0. *)
Theorem mapResource_timings_shape (referer : string) (resource : Resource) :
  exists n,
    mapResource referer resource = Ok n
    /\ List.length (nr_timings n) = 6%nat
    /\ List.map t_name (nr_timings n) = timing_names
    /\ (forall i name,
          nth_error timing_names i = Some name ->
          In name event_names ->
          lookup name (events resource) = None ->
          nth_error (nr_timings n) i = Some (placeholder name)).
Proof.
  destruct (mapResource_returns referer resource) as (d & _ & Hmap).
  eexists. split; [exact Hmap|]. simpl.
  split; [reflexivity|].
  split; [unfold mapEvent, mapRequestTiming; now rewrite !mapTiming_name|].
  intros i name Hi Hin Habs.
  destruct i as [|[|[|[|[|[|i]]]]]]; simpl in Hi |- *;
    try (destruct i; discriminate); injection Hi as <-.
  - simpl in Hin. intuition discriminate.
  - f_equal. now apply mapEvent_absent.
  - f_equal. now apply mapEvent_absent.
  - f_equal. now apply mapEvent_absent.
  - simpl in Hin. intuition discriminate.
  - f_equal. now apply mapEvent_absent.
Qed.

Lemma mapResource_timings_shape_witness :
  exists n,
    mapResource "page" example_resource = Ok n
    /\ nth_error (nr_timings n) 3 = Some (placeholder "connect").
Proof.
  destruct (mapResource_timings_shape "page" example_resource)
    as (n & Hn & _ & _ & Hph).
  exists n. split; [exact Hn|].
  apply (Hph 3%nat "connect"); [reflexivity | simpl; tauto | reflexivity].
Defined.

(** C3: the first entry of [timings] is the segment named blocked, it
    starts at the resource's start and it is the only segment flagged
    [blocked: true]; its duration, however, is [NaN] and not the
    resource's duration: [mapResource] hands [mapTiming] an object with
    [start] and [duration], and [mapTiming] reads [end - start]. *)
Theorem mapResource_blocked_segment (referer : string) (resource : Resource) :
  exists n first rest,
    mapResource referer resource = Ok n
    /\ nr_timings n = first :: rest
    /\ t_name first = "blocked"
    /\ t_start first = nr_start n
    /\ nr_start n = ts_start (timestamps resource)
    /\ t_blocked first = true
    /\ Forall (fun t => t_blocked t = false) rest
    /\ t_duration first = NaN
    /\ t_duration first <> of_Z (nr_duration n).
Proof.
  destruct (mapResource_returns referer resource) as (d & _ & Hmap).
  do 3 eexists. split; [exact Hmap|]. simpl.
  split; [reflexivity|].
  repeat (split; [reflexivity|]).
  split.
  - unfold mapEvent, mapRequestTiming.
    repeat constructor; apply mapTiming_not_blocked.
  - split; [reflexivity | discriminate].
Qed.

Lemma mapRequestTiming_real (resource : Resource) (requestStart : Z) (response : Event) :
  ts_requestStart (timestamps resource) = Some requestStart ->
  requestStart <> 0 ->
  lookup "response" (events resource) = Some response ->
  mapRequestTiming resource
  = {| t_name := "request";
       t_start := requestStart;
       t_duration := of_Z (ev_start response - requestStart);
       t_blocked := false |}.
Proof.
  intros Hrs Hnz Hresp. unfold mapRequestTiming. rewrite Hrs, Hresp.
  simpl. destruct (Z.eqb_spec requestStart 0) as [?|_]; [contradiction|].
  simpl. unfold mapTiming_of. simpl src_start. simpl src_end.
  unfold ToNumber. now rewrite sub_of_Z.
Qed.

Lemma mapRequestTiming_fallback (resource : Resource) :
  truthy (ts_requestStart (timestamps resource)) = false
  \/ lookup "response" (events resource) = None ->
  mapRequestTiming resource = placeholder "request".
Proof.
  unfold mapRequestTiming.
  destruct (ts_requestStart (timestamps resource)) as [rs|];
    destruct (lookup "response" (events resource)) as [resp|];
    intros [H|H]; try discriminate; try reflexivity.
  now rewrite H.
Qed.

(** C4: the fifth entry of [timings] is the request segment.  It differs
    from the placeholder exactly when [timestamps.requestStart] is truthy
    and [events.response] is present; it then starts at [requestStart]
    and lasts [events.response.start - requestStart].  On the example of
    the specification it starts at 140 and lasts 10. *)
Theorem mapRequestTiming_materialised :
  (forall (referer : string) (resource : Resource),
     exists n,
       mapResource referer resource = Ok n
       /\ nth_error (nr_timings n) 4 = Some (mapRequestTiming resource)
       /\ (mapRequestTiming resource <> placeholder "request"
           <-> truthy (ts_requestStart (timestamps resource)) = true
               /\ lookup "response" (events resource) <> None)
       /\ (forall requestStart response,
             ts_requestStart (timestamps resource) = Some requestStart ->
             truthy (Some requestStart) = true ->
             lookup "response" (events resource) = Some response ->
             mapRequestTiming resource
             = {| t_name := "request";
                  t_start := requestStart;
                  t_duration := of_Z (ev_start response - requestStart);
                  t_blocked := false |}))
  /\ mapRequestTiming example_resource
     = {| t_name := "request"; t_start := 140; t_duration := of_Z 10;
          t_blocked := false |}.
Proof.
  split; [|reflexivity].
  intros referer resource.
  destruct (mapResource_returns referer resource) as (d & _ & Hmap).
  eexists. split; [exact Hmap|]. split; [reflexivity|].
  assert (Hreal : forall requestStart response,
             ts_requestStart (timestamps resource) = Some requestStart ->
             truthy (Some requestStart) = true ->
             lookup "response" (events resource) = Some response ->
             mapRequestTiming resource
             = {| t_name := "request";
                  t_start := requestStart;
                  t_duration := of_Z (ev_start response - requestStart);
                  t_blocked := false |}).
  { intros rs resp Hrs Ht Hresp.
    apply mapRequestTiming_real; auto.
    simpl in Ht. intros ->. discriminate. }
  split; [|exact Hreal].
  split.
  - intros Hne.
    destruct (truthy (ts_requestStart (timestamps resource))) eqn:Ht.
    + split; [reflexivity|]. intros Habs. apply Hne.
      apply mapRequestTiming_fallback. now right.
    + exfalso. apply Hne. apply mapRequestTiming_fallback. now left.
  - intros [Ht Hresp] Heq.
    destruct (ts_requestStart (timestamps resource)) as [rs|] eqn:Hrs;
      [|discriminate].
    destruct (lookup "response" (events resource)) as [resp|] eqn:Hl;
      [|contradiction].
    rewrite (Hreal rs resp eq_refl Ht eq_refl) in Heq.
    unfold placeholder in Heq. injection Heq as Hstart _.
    subst rs. discriminate.
Qed.

Lemma mapRequestTiming_materialised_witness :
  mapRequestTiming example_resource
  = {| t_name := "request"; t_start := 140; t_duration := of_Z (150 - 140);
       t_blocked := false |}.
Proof.
  destruct (proj1 mapRequestTiming_materialised "page" example_resource)
    as (n & _ & _ & _ & Hreal).
  apply (Hreal 140 {| ev_start := 150; ev_end := 200 |});
    reflexivity.
Defined.

(** ** The entry point: payloads without a [restiming] array *)

(** C5: for a payload whose [restiming] is absent or is not an array,
    [map] returns the empty string: it throws nothing, and it neither
    maps a resource nor calls the template, whatever the template, the
    settings and the referer are. *)
Theorem map_without_restiming
        (template : RenderModel -> result string) (settings : Settings)
        (data : value) (referer : string) (restiming : value) :
  get data "restiming" = Ok restiming ->
  Array_isArray restiming = false ->
  map template settings data referer = Ok "".
Proof.
  intros Hget Hnot. unfold map. rewrite Hget. simpl. now rewrite Hnot.
Qed.

Lemma map_without_restiming_witness :
  map failing_template sample_settings (VObj [("rt.start", VStr "navigation")])
      "http://example.com/" = Ok ""
  /\ map failing_template sample_settings (VObj [("restiming", VStr "none")])
         "http://example.com/" = Ok "".
Proof.
  split.
  - apply (map_without_restiming _ _ _ _ VUndefined); reflexivity.
  - apply (map_without_restiming _ _ _ _ (VStr "none")); reflexivity.
Defined.

(** With an array the mapping is done and the template is called: the
    typed view of the example entry is the example resource, and a
    template that throws makes [map] throw. *)
Example map_with_restiming_calls_template :
  as_resource example_resource_json = Some example_resource
  /\ map failing_template sample_settings example_payload "page"
     = Err (Error "template called")
  /\ map (fun _ => Ok "rendered") sample_settings example_payload "page"
     = Ok "rendered".
Proof.
  repeat split.
Qed.

(** ** Chart height *)

(** C8: the chart height is
    [(n + 1) * (barHeight + padding) + offset.x] for [n] resources, so one
    more resource adds [barHeight + padding]. *)
Theorem getSvgHeight_linear
        (settings : Settings) (resources longer : list NormalizedResource) :
  List.length longer = S (List.length resources) ->
  getSvgHeight settings resources
  = (Z.of_nat (List.length resources) + 1) * (barHeight settings + padding settings)
    + offset_x settings
  /\ getSvgHeight settings longer - getSvgHeight settings resources
     = barHeight settings + padding settings.
Proof.
  intros Hlen. unfold getSvgHeight. rewrite Hlen. split; [reflexivity|].
  rewrite Nat2Z.inj_succ. ring.
Qed.

Lemma getSvgHeight_linear_witness :
  getSvgHeight sample_settings [bar 0 10]
  = (Z.of_nat 1 + 1) * (20 + 4) + 10
  /\ getSvgHeight sample_settings [bar 0 10; bar 5 20]
     - getSvgHeight sample_settings [bar 0 10] = 20 + 4.
Proof.
  apply (getSvgHeight_linear sample_settings [bar 0 10] [bar 0 10; bar 5 20]).
  reflexivity.
Defined.

(** ** Settings validation *)

Section Validation.

Lemma get_of_property (v : value) (k : string) :
  property v k <> VUndefined -> get v k = Ok (property v k).
Proof.
  unfold property. destruct (get v k); [reflexivity | congruence].
Qed.

Lemma get_positive (v : value) (k : string) :
  positiveNumber (property v k) = true -> get v k = Ok (property v k).
Proof.
  intros H. apply get_of_property. intros E. now rewrite E in H.
Qed.

Lemma get_object (v : value) (k : string) :
  object (property v k) = true -> get v k = Ok (property v k).
Proof.
  intros H. apply get_of_property. intros E. now rewrite E in H.
Qed.

Lemma get_unempty (v : value) (k : string) :
  unemptyString (property v k) = true -> get v k = Ok (property v k).
Proof.
  intros H. apply get_of_property. intros E. now rewrite E in H.
Qed.

Lemma property_of_get (v : value) (k : string) (x : value) :
  get v k = Ok x -> property v k = x.
Proof.
  unfold property. now intros ->.
Qed.

Lemma get_in_object (c : value) (k : string) :
  object c = true -> get c k = Ok (property c k).
Proof.
  destruct c; try discriminate. reflexivity.
Qed.

Lemma getSettings_aborts (s : value) (e : error) :
  verifySettings s = Err e -> getSettings s = Err e.
Proof.
  intros H. unfold getSettings. now rewrite H.
Qed.

Lemma verifyColour_ok (c : value) (index : nat) :
  verifyColour c index = Ok tt <-> colour_ok c.
Proof.
  unfold verifyColour, colour_ok, verify. split.
  - destruct (object c) eqn:Ho; simpl; [|discriminate].
    rewrite !(get_in_object c _ Ho). simpl.
    destruct (unemptyString (property c "name")); simpl; [|discriminate].
    destruct (unemptyString (property c "value")); simpl; [|discriminate].
    destruct (unemptyString (property c "fg")); simpl; [|discriminate].
    auto.
  - intros (Ho & Hn & Hv & Hf). rewrite Ho. simpl.
    rewrite !(get_in_object c _ Ho). simpl.
    now rewrite Hn, Hv, Hf.
Qed.

Lemma verifyColour_missing_fg (c : value) (index : nat) :
  object c = true ->
  unemptyString (property c "name") = true ->
  unemptyString (property c "value") = true ->
  unemptyString (property c "fg") = false ->
  verifyColour c index
  = Err (Error (indexed "Invalid SVG foreground colour [" index)).
Proof.
  intros Ho Hn Hv Hf. unfold verifyColour, verify. rewrite Ho. simpl.
  rewrite !(get_in_object c _ Ho). simpl.
  now rewrite Hn, Hv, Hf.
Qed.

Lemma verifyColours_ok (elements : list value) :
  forall start,
    verifyColours elements start = Ok tt
    <-> (forall i c, nth_error elements i = Some c -> colour_ok c).
Proof.
  induction elements as [|c0 rest IH]; intros start; simpl.
  - split; [intros _ [|i] c H; discriminate | reflexivity].
  - split.
    + destruct (verifyColour c0 start) as [[]|] eqn:H0; simpl; [|discriminate].
      intros Hrest [|i] c Hc; simpl in Hc.
      * injection Hc as <-. now apply (verifyColour_ok c0 start).
      * now apply (proj1 (IH (S start)) Hrest i).
    + intros Hall.
      rewrite (proj2 (verifyColour_ok c0 start) (Hall 0%nat c0 eq_refl)). simpl.
      apply IH. intros i c Hc. now apply (Hall (S i)).
Qed.

Lemma verifyColours_first_failure (elements : list value) :
  forall start i c e,
    nth_error elements i = Some c ->
    (forall j c', (j < i)%nat -> nth_error elements j = Some c' -> colour_ok c') ->
    verifyColour c (start + i) = Err e ->
    verifyColours elements start = Err e.
Proof.
  induction elements as [|c0 rest IH]; intros start [|i] c e Hc Hbefore Hfail;
    simpl in Hc; try discriminate; simpl.
  - injection Hc as <-. rewrite Nat.add_0_r in Hfail. now rewrite Hfail.
  - rewrite (proj2 (verifyColour_ok c0 start) (Hbefore 0%nat c0 (Nat.lt_0_succ i) eq_refl)).
    simpl. apply (IH (S start) i c e Hc).
    + intros j c' Hj Hc'. apply (Hbefore (S j) c'); [lia | exact Hc'].
    + now rewrite Nat.add_succ_comm.
Qed.

(** A settings object passes [verifySettings] exactly when every check
    holds; [offset.y] is not among them. *)
Lemma verifySettings_ok (s : value) :
  verifySettings s = Ok tt
  <-> width_ok s /\ offset_ok s /\ barHeight_ok s /\ padding_ok s
      /\ exists elements,
           property s "colours" = VArr elements
           /\ List.length elements = 6%nat
           /\ forall i c, nth_error elements i = Some c -> colour_ok c.
Proof.
  unfold verifySettings, width_ok, offset_ok, barHeight_ok, padding_ok, verify.
  split.
  - destruct (get s "width") as [w|] eqn:Hw; simpl; [|discriminate].
    rewrite (property_of_get _ _ _ Hw).
    destruct (positiveNumber w); simpl; [|discriminate].
    destruct (get s "offset") as [o|] eqn:Ho; simpl; [|discriminate].
    rewrite (property_of_get _ _ _ Ho).
    destruct (object o) eqn:Hobj; simpl; [|discriminate].
    rewrite (get_in_object o "x" Hobj). simpl.
    destruct (positiveNumber (property o "x")); simpl; [|discriminate].
    destruct (get s "barHeight") as [bh|] eqn:Hbh; simpl; [|discriminate].
    rewrite (property_of_get _ _ _ Hbh).
    destruct (positiveNumber bh); simpl; [|discriminate].
    destruct (get s "padding") as [pad|] eqn:Hpad; simpl; [|discriminate].
    rewrite (property_of_get _ _ _ Hpad).
    destruct (positiveNumber pad); simpl; [|discriminate].
    destruct (get s "colours") as [cs|] eqn:Hcs; simpl; [|discriminate].
    rewrite (property_of_get _ _ _ Hcs).
    destruct cs as [| | | | |elements|]; simpl; try discriminate.
    destruct (Z.eqb_spec (Z.of_nat (List.length elements)) 6) as [Hlen|];
      simpl; [|discriminate].
    intros Hcols. split; [reflexivity|]. split; [now split|].
    do 2 (split; [reflexivity|]).
    exists elements. split; [reflexivity|]. split; [lia|].
    now apply (verifyColours_ok elements 0%nat).
  - intros (Hw & (Ho & Hx) & Hbh & Hpad & elements & Hcs & Hlen & Hcols).
    rewrite (get_positive _ _ Hw); cbn [bind]; rewrite Hw; cbn [bind].
    rewrite (get_object _ _ Ho); cbn [bind]; rewrite Ho; cbn [bind].
    rewrite (get_positive _ _ Hx); cbn [bind]; rewrite Hx; cbn [bind].
    rewrite (get_positive _ _ Hbh); cbn [bind]; rewrite Hbh; cbn [bind].
    rewrite (get_positive _ _ Hpad); cbn [bind]; rewrite Hpad; cbn [bind].
    assert (Hget : get s "colours" = Ok (VArr elements)).
    { rewrite <- Hcs. apply get_of_property. now rewrite Hcs. }
    rewrite Hget. simpl. rewrite Hlen. simpl.
    now apply verifyColours_ok.
Qed.

(** What [getSettings] returns has passed every check. *)
Lemma getSettings_validated (raw : value) (s : Settings) :
  getSettings raw = Ok s ->
  0 < width s /\ 0 < offset_x s /\ 0 < barHeight s /\ 0 < padding s
  /\ List.length (colours s) = 6%nat
  /\ resourceHeight s = barHeight s + padding s
  /\ barPadding s = padding s / 2.
Proof.
  unfold getSettings.
  destruct (verifySettings raw) as [[]|] eqn:Hv; cbn [bind]; [|discriminate].
  apply verifySettings_ok in Hv.
  destruct Hv as (Hw & (_ & Hx) & Hbh & Hpad & elements & Hcs & Hlen & _).
  unfold width_ok, barHeight_ok, padding_ok in *.
  intros H. injection H as <-. cbn.
  rewrite Hcs. cbn [elements_of]. rewrite length_map.
  assert (Hpos : forall v, positiveNumber v = true -> 0 < number_of v).
  { intros [] Hv; try discriminate. simpl in *. lia. }
  repeat split; auto.
Qed.

Lemma not_ok_rejected (s : value) :
  verifySettings s <> Ok tt -> rejected s.
Proof.
  intros H. destruct (verifySettings s) as [[]|e] eqn:Hv; [congruence|]. clear H.
  exists e. split; [exact Hv|]. now apply getSettings_aborts.
Qed.

Lemma rejects_with_of (s : value) (message : string) :
  verifySettings s = Err (Error message) -> rejects_with s message.
Proof.
  intros H. split; [exact H|]. now apply getSettings_aborts.
Qed.

Lemma reject_width (s : value) :
  positiveNumber (property s "width") = false ->
  property s "width" <> VUndefined ->
  rejects_with s "Invalid SVG width".
Proof.
  intros Hw Hdef. apply rejects_with_of. unfold verifySettings, verify.
  rewrite (get_of_property _ _ Hdef); cbn [bind]; rewrite Hw. reflexivity.
Qed.

Lemma reject_offset (s : value) :
  width_ok s ->
  object (property s "offset") = false ->
  rejects_with s "Invalid SVG offset".
Proof.
  intros Hw Ho. apply rejects_with_of. unfold verifySettings, verify.
  rewrite (get_positive _ _ Hw); cbn [bind]; rewrite Hw; cbn [bind].
  assert (Hget : get s "offset" = Ok (property s "offset")).
  { unfold property. destruct s; try reflexivity; discriminate. }
  rewrite Hget; cbn [bind]; rewrite Ho. reflexivity.
Qed.

Lemma reject_barHeight (s : value) :
  width_ok s -> offset_ok s ->
  positiveNumber (property s "barHeight") = false ->
  rejects_with s "Invalid SVG bar height".
Proof.
  intros Hw (Ho & Hx) Hbh. apply rejects_with_of. unfold verifySettings, verify.
  rewrite (get_positive _ _ Hw); cbn [bind]; rewrite Hw; cbn [bind].
  rewrite (get_object _ _ Ho); cbn [bind]; rewrite Ho; cbn [bind].
  rewrite (get_positive _ _ Hx); cbn [bind]; rewrite Hx; cbn [bind].
  assert (Hget : get s "barHeight" = Ok (property s "barHeight")).
  { unfold property. destruct s; try reflexivity; discriminate. }
  rewrite Hget; cbn [bind]; rewrite Hbh. reflexivity.
Qed.

Lemma verifySettings_colours (s : value) (elements : list value) :
  width_ok s -> offset_ok s -> barHeight_ok s -> padding_ok s ->
  property s "colours" = VArr elements ->
  verifySettings s
  = if negb (Z.of_nat (List.length elements) =? 6)
    then Err (Error "Incorrect number of SVG colours")
    else verifyColours elements 0%nat.
Proof.
  intros Hw (Ho & Hx) Hbh Hpad Hcs. unfold verifySettings, verify.
  rewrite (get_positive _ _ Hw); cbn [bind]; rewrite Hw; cbn [bind].
  rewrite (get_object _ _ Ho); cbn [bind]; rewrite Ho; cbn [bind].
  rewrite (get_positive _ _ Hx); cbn [bind]; rewrite Hx; cbn [bind].
  rewrite (get_positive _ _ Hbh); cbn [bind]; rewrite Hbh; cbn [bind].
  rewrite (get_positive _ _ Hpad); cbn [bind]; rewrite Hpad; cbn [bind].
  assert (Hget : get s "colours" = Ok (VArr elements)).
  { rewrite <- Hcs. apply get_of_property. now rewrite Hcs. }
  rewrite Hget. reflexivity.
Qed.

Lemma get_throws_TypeError (v : value) (k : string) (e : error) :
  get v k = Err e -> e = TypeError.
Proof.
  destruct v; simpl; congruence.
Qed.

(** One property read followed by one check, in a goal that excludes a
    given message. *)
Ltac read_then_check :=
  match goal with
  | |- context [get ?v ?k] =>
      let H := fresh "Hget" in
      destruct (get v k) eqn:H; cbn [bind];
      [ match goal with
        | |- context [if ?b then _ else _] =>
            destruct b; cbn [bind]; [|discriminate]
        end
      | apply get_throws_TypeError in H; subst; discriminate ]
  end.

(** No input makes the second check on [offset.x] fail: it repeats the
    first one. *)
Lemma y_offset_never_reported (s : value) :
  verifySettings s <> Err (Error "Invalid SVG y offset").
Proof.
  unfold verifySettings, verify.
  read_then_check.
  destruct (get s "offset") as [o|] eqn:Ho; cbn [bind];
    [|apply get_throws_TypeError in Ho; subst; discriminate].
  destruct (object o) eqn:Hobj; cbn [bind]; [|discriminate].
  rewrite (get_in_object o "x" Hobj); cbn [bind].
  destruct (positiveNumber (property o "x")); cbn [bind]; [|discriminate].
  do 2 read_then_check.
  destruct (get s "colours") as [cs|] eqn:Hcs; cbn [bind];
    [|apply get_throws_TypeError in Hcs; subst; discriminate].
  destruct cs as [| | | | |elements|]; cbn; try discriminate.
  destruct (negb _); [discriminate|]. clear Hcs.
  generalize 0%nat. induction elements as [|c rest IH]; intros start; simpl.
  - discriminate.
  - unfold verifyColour at 1. unfold verify, indexed.
    destruct (object c) eqn:Hc; cbn [bind]; [|discriminate].
    rewrite !(get_in_object c _ Hc); cbn [bind].
    destruct (unemptyString (property c "name")); cbn [bind]; [|discriminate].
    destruct (unemptyString (property c "value")); cbn [bind]; [|discriminate].
    destruct (unemptyString (property c "fg")); cbn [bind]; [|discriminate].
    apply IH.
Qed.

End Validation.

(** C6: [verifySettings] rejects a width of 0 or -1, an offset that is
    not an object, a bar height of 0, a palette of 5 or 7 colours and a
    colour without [fg]; the error message names the field when the
    fields checked before it are valid, and in every case loading returns
    no settings object.  The second check on the offset reads [offset.x]
    again: validation does not depend on [offset.y], and the message of
    that second check is never produced. *)
Theorem verifySettings_rejections :
  (forall s,
     property s "width" = VNum 0 \/ property s "width" = VNum (-1) ->
     rejects_with s "Invalid SVG width")
  /\ (forall s,
        width_ok s ->
        object (property s "offset") = false ->
        rejects_with s "Invalid SVG offset")
  /\ (forall s,
        width_ok s -> offset_ok s ->
        property s "barHeight" = VNum 0 ->
        rejects_with s "Invalid SVG bar height")
  /\ (forall s elements,
        width_ok s -> offset_ok s -> barHeight_ok s -> padding_ok s ->
        property s "colours" = VArr elements ->
        List.length elements = 5%nat \/ List.length elements = 7%nat ->
        rejects_with s "Incorrect number of SVG colours")
  /\ (forall s elements i c,
        width_ok s -> offset_ok s -> barHeight_ok s -> padding_ok s ->
        property s "colours" = VArr elements ->
        List.length elements = 6%nat ->
        nth_error elements i = Some c ->
        (forall j c', (j < i)%nat -> nth_error elements j = Some c' -> colour_ok c') ->
        object c = true ->
        unemptyString (property c "name") = true ->
        unemptyString (property c "value") = true ->
        property c "fg" = VUndefined ->
        rejects_with s (indexed "Invalid SVG foreground colour [" i))
  /\ (forall s elements i c,
        object (property s "offset") = false
        \/ property s "barHeight" = VNum 0
        \/ (property s "colours" = VArr elements
            /\ (List.length elements = 5%nat \/ List.length elements = 7%nat))
        \/ (property s "colours" = VArr elements
            /\ nth_error elements i = Some c
            /\ property c "fg" = VUndefined) ->
        rejected s)
  /\ (forall w x y y' bh pad cs,
        verifySettings (settings_json w (VObj [("x", x); ("y", y)]) bh pad cs)
        = verifySettings (settings_json w (VObj [("x", x); ("y", y')]) bh pad cs))
  /\ (forall s, verifySettings s <> Err (Error "Invalid SVG y offset"))
  /\ verifySettings
       (settings_json (VNum 960) (VObj [("x", VNum 10); ("y", VNum (-5))])
                      (VNum 20) (VNum 4) (VArr (repeat good_colour 6)))
     = Ok tt.
Proof.
  split; [|split; [|split; [|split; [|split; [|split; [|split; [|split]]]]]]].
  - intros s [H|H]; apply reject_width; rewrite H; easy.
  - intros s. apply reject_offset.
  - intros s Hw Ho H. apply reject_barHeight; auto. now rewrite H.
  - intros s elements Hw Ho Hbh Hpad Hcs Hlen. apply rejects_with_of.
    rewrite (verifySettings_colours s elements Hw Ho Hbh Hpad Hcs).
    destruct Hlen as [-> | ->]; reflexivity.
  - intros s elements i c Hw Ho Hbh Hpad Hcs Hlen Hc Hbefore Hobj Hn Hv Hfg.
    apply rejects_with_of.
    rewrite (verifySettings_colours s elements Hw Ho Hbh Hpad Hcs), Hlen.
    cbn [Z.of_nat Pos.of_succ_nat Pos.succ Z.eqb Pos.eqb negb].
    apply (verifyColours_first_failure elements 0%nat i c _ Hc Hbefore).
    apply verifyColour_missing_fg; auto. now rewrite Hfg.
  - intros s elements i c Hdefect. apply not_ok_rejected. intros Hok.
    apply verifySettings_ok in Hok.
    destruct Hok as (_ & (Ho & _) & Hbh & _ & els & Hcs & Hlen & Hcols).
    destruct Hdefect as [H|[H|[[H Hl]|(H & Hc & Hfg)]]].
    + congruence.
    + unfold barHeight_ok in Hbh. rewrite H in Hbh. discriminate.
    + rewrite H in Hcs. injection Hcs as <-. lia.
    + rewrite H in Hcs. injection Hcs as <-.
      destruct (Hcols i c Hc) as (_ & _ & _ & Hf).
      rewrite Hfg in Hf. discriminate.
  - reflexivity.
  - apply y_offset_never_reported.
  - reflexivity.
Qed.

Lemma verifySettings_rejections_witness :
  rejects_with
    (settings_json (VNum 0) good_offset (VNum 20) (VNum 4)
                   (VArr (repeat good_colour 6)))
    "Invalid SVG width"
  /\ rejects_with
       (settings_json (VNum 960) (VStr "10,40") (VNum 20) (VNum 4)
                      (VArr (repeat good_colour 6)))
       "Invalid SVG offset"
  /\ rejects_with
       (settings_json (VNum 960) good_offset (VNum 0) (VNum 4)
                      (VArr (repeat good_colour 6)))
       "Invalid SVG bar height"
  /\ rejects_with
       (settings_json (VNum 960) good_offset (VNum 20) (VNum 4)
                      (VArr (repeat good_colour 7)))
       "Incorrect number of SVG colours"
  /\ rejects_with
       (settings_json (VNum 960) good_offset (VNum 20) (VNum 4)
                      (VArr palette_missing_fg))
       "Invalid SVG foreground colour [2]"
  /\ rejected
       (settings_json (VNum (-1)) good_offset (VNum 0) (VNum 4)
                      (VArr (repeat good_colour 5))).
Proof.
  destruct verifySettings_rejections
    as (Hwidth & Hoffset & Hbar & Hcount & Hfg & Hany & _).
  split; [|split; [|split; [|split; [|split]]]].
  - apply Hwidth. left. reflexivity.
  - apply Hoffset; reflexivity.
  - apply Hbar; [reflexivity | split; reflexivity | reflexivity].
  - apply (Hcount _ (repeat good_colour 7));
      [reflexivity | split; reflexivity | reflexivity | reflexivity
       | reflexivity | right; reflexivity].
  - apply (Hfg _ palette_missing_fg 2%nat colour_without_fg);
      try reflexivity; try (split; reflexivity).
    intros [|[|j]] c' Hj Hc'; simpl in Hc'.
    + injection Hc' as <-. repeat split.
    + injection Hc' as <-. repeat split.
    + lia.
  - apply (Hany _ [] 0%nat VNull). right. left. reflexivity.
Defined.

(** ** Chart ticks *)

Section TickArithmetic.

Lemma Qzero_inject (z : Z) : Qzero (inject_Z z) = (z =? 0).
Proof. reflexivity. Qed.

Lemma ceil_div_5 (d : Z) :
  Math_ceil (div (of_Z d) (of_Z 5)) = of_Z (ceil_div d 5).
Proof.
  unfold div, of_Z, ceil_div. rewrite Qzero_inject. simpl (5 =? 0). cbv iota.
  unfold fin, Math_ceil, of_Z. apply f_equal. apply f_equal.
  rewrite (Qceiling_comp _ _ (Qred_correct (inject_Z d / inject_Z 5))).
  unfold Qceiling. apply f_equal.
  rewrite (Zdiv_Qdiv (- d) 5). apply Qfloor_comp.
  rewrite inject_Z_opp. field.
Qed.

Lemma Qtrunc_div_pos (a b : Z) :
  0 < b -> Qtrunc (inject_Z a / inject_Z b) = Z.quot a b.
Proof.
  intros Hb. destruct b as [|p|p]; try lia.
  unfold Qtrunc, Qneg.
  assert (Hnum : Qnum (inject_Z a / inject_Z (Z.pos p)) = a * 1) by reflexivity.
  rewrite Hnum.
  destruct (Z.ltb_spec (a * 1) 0) as [Hneg|Hpos].
  - unfold Qceiling.
    assert (E : (- (inject_Z a / inject_Z (Z.pos p))
                 == inject_Z (- a) / inject_Z (Z.pos p))%Q).
    { rewrite inject_Z_opp. field. discriminate. }
    rewrite (Qfloor_comp _ _ E), <- Zdiv_Qdiv.
    rewrite <- (Z.quot_div_nonneg (- a) (Z.pos p)) by lia.
    rewrite Z.quot_opp_l by lia. lia.
  - rewrite <- Zdiv_Qdiv. symmetry. apply Z.quot_div_nonneg; lia.
Qed.

Lemma rem_of_Z (a b : Z) :
  0 < b -> rem (of_Z a) (of_Z b) = of_Z (Z.rem a b).
Proof.
  intros Hb. unfold rem, of_Z. rewrite Qzero_inject.
  destruct (Z.eqb_spec b 0) as [?|_]; [lia|].
  apply fin_of_Z. rewrite (Qtrunc_div_pos a b Hb).
  unfold Qminus. rewrite <- inject_Z_mult, <- inject_Z_opp, <- inject_Z_plus.
  pose proof (Z.quot_rem' a b).
  replace (a + - (b * (a ÷ b))) with (Z.rem a b) by lia. reflexivity.
Qed.

Lemma rem_by_zero (a : Z) : rem (of_Z a) (of_Z 0) = NaN.
Proof. reflexivity. Qed.

Lemma div_exact (b k : Z) :
  b <> 0 -> div (of_Z (b * k)) (of_Z b) = of_Z k.
Proof.
  intros Hb. unfold div, of_Z. rewrite Qzero_inject.
  destruct (Z.eqb_spec b 0) as [?|_]; [contradiction|].
  apply fin_of_Z. rewrite inject_Z_mult. field.
  intros E. apply Hb. unfold Qeq in E. simpl in E. lia.
Qed.

Lemma ceil_div_5_pos (d : Z) : 0 < d -> 0 < ceil_div d 5 /\ d <= 5 * ceil_div d 5.
Proof.
  intros Hd. unfold ceil_div.
  pose proof (Z.div_mod (- d) 5 ltac:(lia)).
  pose proof (Z.mod_pos_bound (- d) 5 ltac:(lia)). lia.
Qed.

(** The two bounds are multiples of the step, and between one and seven
    steps apart. *)
Lemma tick_count_bounds (m M : Z) :
  0 <= M -> m < M ->
  let st := ceil_div (M - m) 5 in
  let M' := M + (st - Z.rem M st) in
  let m' := m - Z.rem m st in
  0 < st
  /\ M' = st * (M / st + 1)
  /\ m' = st * (Z.quot m st)
  /\ 0 < M / st + 1 - Z.quot m st <= 7.
Proof.
  intros HM Hlt st M' m'.
  destruct (ceil_div_5_pos (M - m) ltac:(lia)) as [Hst Hle]. fold st in Hst, Hle.
  assert (HremM : Z.rem M st = M mod st) by (apply Z.rem_mod_nonneg; lia).
  pose proof (Z.div_mod M st ltac:(lia)) as HdM.
  pose proof (Z.mod_pos_bound M st Hst) as HbM.
  pose proof (Z.quot_rem' m st) as Hqm.
  assert (Hrm : - st < Z.rem m st < st).
  { destruct (Z_lt_le_dec m 0).
    - pose proof (Z.rem_bound_pos_neg m st ltac:(lia) ltac:(lia)). lia.
    - pose proof (Z.rem_bound_pos m st ltac:(lia) ltac:(lia)). lia. }
  assert (Hsign : 0 <= m -> 0 <= Z.rem m st).
  { intros. pose proof (Z.rem_bound_pos m st ltac:(lia) ltac:(lia)). lia. }
  assert (Hsign' : m < 0 -> Z.rem m st <= 0).
  { intros. pose proof (Z.rem_bound_pos_neg m st ltac:(lia) ltac:(lia)). lia. }
  split; [exact Hst|].
  assert (E1 : M' = st * (M / st + 1))
    by (unfold M'; rewrite HremM, Z.mul_add_distr_l; lia).
  assert (E2 : m' = st * (Z.quot m st)) by (unfold m'; lia).
  split; [exact E1|]. split; [exact E2|].
  assert (Hdiff : 0 < M' - m' < 7 * st).
  { unfold M', m'. destruct (Z_lt_le_dec m 0).
    - specialize (Hsign' ltac:(lia)).
      assert (Z.quot m st < 1) by (apply (Z.mul_lt_mono_pos_l st); lia).
      assert (st * Z.quot m st <= 0) by nia. lia.
    - specialize (Hsign ltac:(lia)). lia. }
  rewrite E1, E2 in Hdiff. nia.
Qed.

End TickArithmetic.

Section Arrays.

Context {A : Type}.

Lemma new_Array_of_Z (c : Z) :
  0 <= c <= 4294967295 ->
  @new_Array A (of_Z c) = Ok (repeat None (Z.to_nat c)).
Proof.
  intros [Hlo Hhi]. unfold new_Array, of_Z, is_array_length. simpl.
  destruct (Z.leb_spec 0 c); [|lia].
  destruct (Z.leb_spec c 4294967295); [|lia]. reflexivity.
Qed.

Lemma new_Array_NaN : @new_Array A NaN = Err RangeError.
Proof. reflexivity. Qed.

Lemma nth_error_holes (n i : nat) (x : option A) :
  nth_error (repeat (@None A) n) i = Some x -> x = None.
Proof.
  intros H. apply nth_error_In in H. now apply repeat_spec in H.
Qed.

(** [forEach] never calls its callback on an array of empty slots. *)
Lemma forEach_holes (callback : A -> nat -> sparse A -> sparse A) (n : nat) :
  forEach callback (repeat None n) = repeat None n.
Proof.
  unfold forEach. generalize (List.length (repeat (@None A) n)) at 1.
  generalize 0%nat. intros i k. revert i.
  induction k as [|k IH]; intros i; simpl; [reflexivity|].
  destruct (nth_error (repeat None n) i) as [[x|]|] eqn:H.
  - apply nth_error_holes in H. discriminate.
  - apply IH.
  - apply IH.
Qed.

End Arrays.

Section Ticks.

Lemma getMaximumValue_max (maximum : Z) (resource : NormalizedResource) :
  getMaximumValue maximum resource = Z.max maximum (end_of resource).
Proof.
  unfold getMaximumValue, end_of.
  destruct (Z.gtb_spec (nr_start resource + nr_duration resource) maximum); lia.
Qed.

Lemma fold_getMaximumValue (resources : list NormalizedResource) :
  forall a b,
    fold_left getMaximumValue resources (Z.max a b)
    = Z.max a (fold_left (fun m r => Z.max m (end_of r)) resources b).
Proof.
  induction resources as [|r rest IH]; intros a b; simpl; [reflexivity|].
  rewrite getMaximumValue_max, <- Z.max_assoc. apply IH.
Qed.

(** The maximum of [getSvgTicks] is the largest of 0 and the ends. *)
Lemma chart_maximum_spec (first : NormalizedResource) (rest : list NormalizedResource) :
  chart_maximum (first :: rest) = Z.max 0 (latest_end first rest).
Proof.
  unfold chart_maximum, latest_end. simpl.
  rewrite getMaximumValue_max. apply fold_getMaximumValue.
Qed.

Lemma chart_maximum_nonneg (resources : list NormalizedResource) :
  0 <= chart_maximum resources.
Proof.
  destruct resources as [|first rest]; [reflexivity|].
  rewrite chart_maximum_spec. lia.
Qed.

(** [getSvgTicks] on resources that span time: an array of empty slots,
    one per step between the two bounds. *)
Lemma getSvgTicks_spanning (settings : Settings)
      (first : NormalizedResource) (rest : list NormalizedResource) :
  chart_minimum (first :: rest) < chart_maximum (first :: rest) ->
  getSvgTicks settings (first :: rest)
  = Ok (repeat None
          (Z.to_nat (chart_maximum (first :: rest) / chart_step (first :: rest) + 1
                     - Z.quot (chart_minimum (first :: rest))
                              (chart_step (first :: rest))))).
Proof.
  intros Hspan.
  pose proof (chart_maximum_nonneg (first :: rest)) as Hnonneg.
  destruct (tick_count_bounds _ _ Hnonneg Hspan) as (Hst & EM & Em & Hc).
  fold (chart_step (first :: rest)) in Hst, EM, Em, Hc.
  unfold getSvgTicks. cbv zeta.
  fold (chart_maximum (first :: rest)).
  change (nr_start first) with (chart_minimum (first :: rest)).
  rewrite !sub_of_Z, !ceil_div_5.
  fold (chart_step (first :: rest)).
  rewrite !(rem_of_Z _ _ Hst), !sub_of_Z, !add_of_Z, !sub_of_Z.
  rewrite EM, Em, <- Z.mul_sub_distr_l.
  rewrite (div_exact _ _ (Z.neq_sym _ _ (Z.lt_neq _ _ Hst))).
  rewrite new_Array_of_Z by lia. cbn [bind].
  now rewrite forEach_holes.
Qed.

(** [getSvgTicks] when the maximum equals the first start: the step is
    0, the remainder by it is [NaN], and the allocation throws. *)
Lemma getSvgTicks_flat (settings : Settings)
      (first : NormalizedResource) (rest : list NormalizedResource) :
  chart_maximum (first :: rest) = chart_minimum (first :: rest) ->
  getSvgTicks settings (first :: rest) = Err RangeError.
Proof.
  intros Hflat. unfold getSvgTicks. cbv zeta.
  fold (chart_maximum (first :: rest)). rewrite Hflat. simpl chart_minimum.
  rewrite !sub_of_Z, Z.sub_diag, !ceil_div_5.
  change (ceil_div 0 5) with 0. rewrite !rem_by_zero. reflexivity.
Qed.

(** Whatever [getSvgTicks] returns, no slot of it holds a tick: the
    callback of [ticks.forEach] is never called. *)
Lemma getSvgTicks_leaves_holes (settings : Settings)
      (resources : list NormalizedResource) (ticks : sparse Tick) :
  getSvgTicks settings resources = Ok ticks ->
  forall i slot, nth_error ticks i = Some slot -> slot = None.
Proof.
  unfold getSvgTicks. destruct resources as [|first rest]; [discriminate|].
  cbv zeta.
  match goal with
  | |- context [@new_Array Tick ?len] => destruct (@new_Array Tick len) as [arr|] eqn:Hnew
  end; cbn [bind]; [|discriminate].
  unfold new_Array in Hnew.
  match type of Hnew with
  | match ?len with _ => _ end = _ => destruct len as [q| |]; try discriminate
  end.
  destruct (is_array_length q); [|discriminate].
  injection Hnew as <-. rewrite forEach_holes.
  intros H. injection H as <-. intros i slot. apply nth_error_holes.
Qed.

End Ticks.

(** C7, as the code has it: for resources that span time, that is with
    the first start below the maximum, [getSvgTicks] returns an array
    whose length is [(roundedMaximum - roundedMinimum) / step], the
    division being exact.  Here the minimum is the first resource's start,
    the maximum is the largest of 0 and [start + duration] over the
    resources, the step is [ceil ((maximum - minimum) / 5)], the rounded
    maximum is the next multiple of the step strictly above the maximum
    and the rounded minimum is the minimum truncated toward zero to a
    multiple of the step. *)
Theorem getSvgTicks_count (settings : Settings)
        (first : NormalizedResource) (rest : list NormalizedResource) :
  chart_minimum (first :: rest) < chart_maximum (first :: rest) ->
  exists ticks,
    getSvgTicks settings (first :: rest) = Ok ticks
    /\ Z.of_nat (List.length ticks)
       = (rounded_maximum (first :: rest) - rounded_minimum (first :: rest))
         / chart_step (first :: rest)
    /\ rounded_maximum (first :: rest) - rounded_minimum (first :: rest)
       = chart_step (first :: rest) * Z.of_nat (List.length ticks)
    /\ chart_minimum (first :: rest) = nr_start first
    /\ chart_maximum (first :: rest) = Z.max 0 (latest_end first rest)
    /\ 0 < chart_step (first :: rest)
    /\ rounded_maximum (first :: rest)
       = chart_step (first :: rest)
         * (chart_maximum (first :: rest) / chart_step (first :: rest) + 1)
    /\ rounded_minimum (first :: rest)
       = chart_step (first :: rest)
         * Z.quot (chart_minimum (first :: rest)) (chart_step (first :: rest)).
Proof.
  intros Hspan.
  pose proof (chart_maximum_nonneg (first :: rest)) as Hnonneg.
  destruct (tick_count_bounds _ _ Hnonneg Hspan) as (Hst & EM & Em & Hc).
  fold (chart_step (first :: rest)) in Hst, EM, Em, Hc.
  fold (rounded_maximum (first :: rest)) in EM.
  fold (rounded_minimum (first :: rest)) in Em.
  eexists. split; [apply (getSvgTicks_spanning settings first rest Hspan)|].
  rewrite repeat_length, Z2Nat.id by lia.
  rewrite EM, Em, <- Z.mul_sub_distr_l.
  split; [|split; [reflexivity|split; [reflexivity|split;
    [apply chart_maximum_spec|split; [exact Hst|split; reflexivity]]]]].
  rewrite Z.mul_comm, Z.div_mul by lia. reflexivity.
Qed.

Lemma getSvgTicks_count_witness :
  exists ticks,
    getSvgTicks sample_settings [bar 100 100; bar 120 300] = Ok ticks
    /\ Z.of_nat (List.length ticks) = (448 - 64) / 64.
Proof.
  destruct (getSvgTicks_count sample_settings (bar 100 100) [bar 120 300])
    as (ticks & Hticks & Hlen & _).
  - reflexivity.
  - exists ticks. split; [exact Hticks | exact Hlen].
Defined.

(** The count of the specification, with the maximum rounded up to the
    nearest multiple of the step, is not the length of the array when the
    maximum is already a multiple: one resource from 0 to 10 gives a step
    of 2 and six slots, where the specification counts five. *)
Lemma getSvgTicks_count_counterexample :
  exists ticks,
    getSvgTicks sample_settings [bar 0 10] = Ok ticks
    /\ Z.of_nat (List.length ticks) = 6
    /\ specified_tick_count (bar 0 10) [] = 5
    /\ Z.of_nat (List.length ticks) <> specified_tick_count (bar 0 10) [].
Proof.
  eexists. split; [reflexivity|]. repeat split. discriminate.
Qed.

(** C9, as the code has it: when the maximum (the largest of 0 and
    [start + duration]) equals the first resource's start, the step is 0
    and nothing guards it; the remainders by the step are [NaN], no
    arithmetic error is raised, and tick generation fails with the
    [RangeError] of an array allocated with a [NaN] length. *)
Theorem getSvgTicks_zero_span (settings : Settings)
        (first : NormalizedResource) (rest : list NormalizedResource) :
  chart_maximum (first :: rest) = chart_minimum (first :: rest) ->
  let maximum := of_Z (chart_maximum (first :: rest)) in
  let minimum := of_Z (chart_minimum (first :: rest)) in
  let step := Math_ceil (div (sub maximum minimum) (of_Z 5)) in
  step = of_Z 0
  /\ rem maximum step = NaN
  /\ rem minimum step = NaN
  /\ div (sub (add maximum (sub step (rem maximum step)))
              (sub minimum (rem minimum step))) step = NaN
  /\ getSvgTicks settings (first :: rest) = Err RangeError.
Proof.
  intros Hflat maximum minimum step.
  assert (Hstep : step = of_Z 0).
  { subst step maximum minimum.
    now rewrite Hflat, sub_of_Z, Z.sub_diag, ceil_div_5. }
  rewrite Hstep. subst maximum minimum.
  repeat split; try reflexivity.
  now apply getSvgTicks_flat.
Qed.

Lemma getSvgTicks_zero_span_witness :
  getSvgTicks sample_settings [bar 5 0] = Err RangeError.
Proof.
  apply (getSvgTicks_zero_span sample_settings (bar 5 0) []). reflexivity.
Defined.

(** Where the reading as an arithmetic failure departs from the code: a
    single resource from 5 to 5 fails, but with a [RangeError] at the
    allocation, the remainder by zero being the value [NaN]; and a single
    resource from -5 to -5, whose largest end equals its start, does not
    fail at all, since the maximum starts from 0 and the step is 1. *)
Lemma getSvgTicks_zero_span_counterexample :
  (rem (of_Z 5) (of_Z 0) = NaN
   /\ getSvgTicks sample_settings [bar 5 0] = Err RangeError)
  /\ (latest_end (bar (-5) 0) [] = nr_start (bar (-5) 0)
      /\ chart_step [bar (-5) 0] = 1
      /\ getSvgTicks sample_settings [bar (-5) 0] = Ok (repeat None 6)).
Proof.
  repeat split.
Qed.

(** ** Further properties of the resource mapper *)

Section MapperExtras.

Lemma reduce_app {A B} (f : A -> B -> result A) (l1 l2 : list B) (a : A) :
  reduce f (l1 ++ l2) a = bind (reduce f l1 a) (reduce f l2).
Proof.
  revert a. induction l1 as [|x l1 IH]; intros a; simpl; [reflexivity|].
  destruct (f a x); simpl; auto.
Qed.

Lemma lookup_app_present {A} (l1 l2 : list (string * A)) (k : string) (v : A) :
  lookup k l1 = Some v -> lookup k (l1 ++ l2) = Some v.
Proof.
  induction l1 as [|[k0 v0] l1 IH]; simpl; [discriminate|].
  destruct (String.eqb k0 k); auto.
Qed.

Lemma lookup_app_absent {A} (l1 l2 : list (string * A)) (k : string) :
  lookup k l1 = None -> lookup k (l1 ++ l2) = lookup k l2.
Proof.
  induction l1 as [|[k0 v0] l1 IH]; simpl; [reflexivity|].
  destruct (String.eqb k0 k); [discriminate | auto].
Qed.

Lemma Object_keys_app {A} (l1 l2 : list (string * A)) :
  Object_keys (l1 ++ l2) = (Object_keys l1 ++ Object_keys l2)%list.
Proof. apply map_app. Qed.

(** A fold over keys that are bound in both resources, to the same
    events and from the same start, gives the same result. *)
Lemma reduce_duration_ext (r r' : Resource) (ks : list string) :
  ts_start (timestamps r) = ts_start (timestamps r') ->
  (forall k, In k ks -> lookup k (events r) = lookup k (events r')) ->
  forall d, reduce (getResourceDuration r) ks d
            = reduce (getResourceDuration r') ks d.
Proof.
  intros Hstart. induction ks as [|k ks IH]; intros Hsame d; simpl; [reflexivity|].
  assert (Hk : getResourceDuration r d k = getResourceDuration r' d k).
  { unfold getResourceDuration. rewrite (Hsame k (or_introl eq_refl)), Hstart.
    reflexivity. }
  rewrite Hk. destruct (getResourceDuration r' d k); simpl; [|reflexivity].
  apply IH. intros k' Hk'. apply Hsame. now right.
Qed.

End MapperExtras.

(** X1: adding an event under a new key never shortens a resource: the
    duration becomes the larger of the old duration and the new event's
    end measured from the resource's start. *)
Theorem duration_with_event
        (referer : string) (r : Resource) (k : string) (e : Event)
        (n : NormalizedResource) :
  lookup k (events r) = None ->
  mapResource referer r = Ok n ->
  exists n',
    mapResource referer (with_event r k e) = Ok n'
    /\ nr_duration n'
       = Z.max (nr_duration n) (ev_end e - ts_start (timestamps r))
    /\ nr_duration n <= nr_duration n'.
Proof.
  intros Hnew Hn.
  destruct (mapResource_returns referer r) as (d & Hd & Hmap).
  rewrite Hmap in Hn. injection Hn as <-. simpl.
  destruct (mapResource_returns referer (with_event r k e)) as (d' & Hd' & Hmap').
  eexists. split; [exact Hmap'|]. simpl.
  assert (Hd'' : d' = Z.max d (ev_end e - ts_start (timestamps r))).
  { simpl in Hd'. rewrite Object_keys_app, reduce_app in Hd'.
    rewrite <- (reduce_duration_ext r (with_event r k e)) in Hd'.
    - rewrite Hd in Hd'. simpl in Hd'.
      rewrite (getResourceDuration_max (with_event r k e) d k e) in Hd'.
      + simpl in Hd'. now injection Hd' as <-.
      + simpl. rewrite (lookup_app_absent _ _ _ Hnew). simpl.
        now rewrite String.eqb_refl.
    - reflexivity.
    - intros k' Hk'. apply lookup_in_keys in Hk'. destruct Hk' as [v Hv].
      simpl. now rewrite (lookup_app_present _ _ _ _ Hv). }
  split; [exact Hd''|lia].
Qed.

Lemma duration_with_event_witness :
  exists n',
    mapResource "page"
      (with_event example_resource "ssl" {| ev_start := 130; ev_end := 260 |})
    = Ok n'
    /\ nr_duration n' = Z.max 100 (260 - 100).
Proof.
  destruct (duration_with_event "page" example_resource "ssl"
              {| ev_start := 130; ev_end := 260 |}
              {| nr_page := "page"; nr_name := "http://example.com/app.js";
                 nr_type := "script"; nr_start := 100; nr_duration := 100;
                 nr_timings := [ {| t_name := "blocked"; t_start := 100;
                                    t_duration := NaN; t_blocked := true |};
                                 placeholder "redirect";
                                 {| t_name := "dns"; t_start := 105;
                                    t_duration := of_Z 10; t_blocked := false |};
                                 placeholder "connect";
                                 {| t_name := "request"; t_start := 140;
                                    t_duration := of_Z 10; t_blocked := false |};
                                 {| t_name := "response"; t_start := 150;
                                    t_duration := of_Z 50; t_blocked := false |} ] |})
    as (n' & Hn' & Hd & _).
  - reflexivity.
  - reflexivity.
  - exists n'. split; [exact Hn' | exact Hd].
Defined.

(** X2: the segments of a resource are read from the four named events,
    [timestamps.start] and [timestamps.requestStart] only: two resources
    that agree on these have the same [timings], whatever their other
    events, names, types and [fetchStart] are. *)
Theorem timings_from_named_events
        (referer referer' : string) (r r' : Resource)
        (n n' : NormalizedResource) :
  ts_start (timestamps r) = ts_start (timestamps r') ->
  ts_requestStart (timestamps r) = ts_requestStart (timestamps r') ->
  (forall name, In name event_names ->
                lookup name (events r) = lookup name (events r')) ->
  mapResource referer r = Ok n ->
  mapResource referer' r' = Ok n' ->
  nr_timings n = nr_timings n'.
Proof.
  intros Hstart Hreq Hsame Hn Hn'.
  destruct (mapResource_returns referer r) as (d & _ & Hmap).
  destruct (mapResource_returns referer' r') as (d' & _ & Hmap').
  rewrite Hmap in Hn. injection Hn as <-.
  rewrite Hmap' in Hn'. injection Hn' as <-. simpl.
  unfold mapEvent, mapRequestTiming.
  rewrite Hstart, Hreq.
  rewrite (Hsame "redirect"), (Hsame "dns"), (Hsame "connect"), (Hsame "response")
    by (simpl; tauto).
  reflexivity.
Qed.

Lemma timings_from_named_events_witness :
  exists n n',
    mapResource "page" example_resource = Ok n
    /\ mapResource "other"
         (with_event example_resource "ssl" {| ev_start := 130; ev_end := 260 |})
       = Ok n'
    /\ nr_duration n <> nr_duration n'
    /\ nr_timings n = nr_timings n'.
Proof.
  do 2 eexists. split; [reflexivity|]. split; [reflexivity|].
  split; [discriminate|].
  apply (timings_from_named_events "page" "other" example_resource
           (with_event example_resource "ssl" {| ev_start := 130; ev_end := 260 |}));
    try reflexivity.
  intros name [<-|[<-|[<-|[<-|[]]]]]; reflexivity.
Defined.

Lemma mapEvent_present (name : string) (resource : Resource) (e : Event) :
  lookup name (events resource) = Some e ->
  mapEvent name resource
  = {| t_name := name; t_start := ev_start e;
       t_duration := of_Z (ev_end e - ev_start e); t_blocked := false |}.
Proof.
  intros H. unfold mapEvent. rewrite H.
  unfold mapTiming, mapTiming_of, of_event.
  cbn [option_map src_start src_end ToNumber].
  now rewrite sub_of_Z.
Qed.

(** X3: the segment of a redirect, dns, connect or response event that is
    present starts at the event's start and lasts [end - start], an
    integer; nothing rejects an event that ends before it starts, whose
    segment has a negative duration. *)
Theorem mapResource_present_events (referer : string) (resource : Resource) :
  exists n,
    mapResource referer resource = Ok n
    /\ forall i name e,
         nth_error timing_names i = Some name ->
         In name event_names ->
         lookup name (events resource) = Some e ->
         nth_error (nr_timings n) i
         = Some {| t_name := name; t_start := ev_start e;
                   t_duration := of_Z (ev_end e - ev_start e);
                   t_blocked := false |}.
Proof.
  destruct (mapResource_returns referer resource) as (d & _ & Hmap).
  eexists. split; [exact Hmap|]. simpl.
  intros i name e Hi Hin He.
  destruct i as [|[|[|[|[|[|i]]]]]]; simpl in Hi |- *;
    try (destruct i; discriminate); injection Hi as <-;
    try (simpl in Hin; intuition discriminate);
    f_equal; now apply mapEvent_present.
Qed.

Lemma mapResource_present_events_witness :
  exists n,
    mapResource "page" example_resource = Ok n
    /\ nth_error (nr_timings n) 2
       = Some {| t_name := "dns"; t_start := 105;
                 t_duration := of_Z (115 - 105); t_blocked := false |}.
Proof.
  destruct (mapResource_present_events "page" example_resource)
    as (n & Hn & Hseg).
  exists n. split; [exact Hn|].
  apply (Hseg 2%nat "dns" {| ev_start := 105; ev_end := 115 |});
    [reflexivity | simpl; tauto | reflexivity].
Defined.

Lemma mapTiming_integer (name : string) (event : option TimingSource) :
  (forall e, event = Some e -> src_end e <> None) ->
  exists z, t_duration (mapTiming name event) = of_Z z.
Proof.
  intros Hend. destruct event as [[s [e|] d]|].
  - exists (e - s). unfold mapTiming, mapTiming_of.
    cbn [t_duration src_start src_end ToNumber]. apply sub_of_Z.
  - now destruct (Hend _ eq_refl).
  - exists 0. reflexivity.
Qed.

(** X4: of the six segments only the first can have a duration that is
    not a number: the five that follow it always have an integer
    duration, whatever the resource holds. *)
Theorem timings_integer_after_first (referer : string) (resource : Resource) :
  exists n first rest,
    mapResource referer resource = Ok n
    /\ nr_timings n = first :: rest
    /\ t_duration first = NaN
    /\ forall t, In t rest -> exists z, t_duration t = of_Z z.
Proof.
  destruct (mapResource_returns referer resource) as (d & _ & Hmap).
  do 3 eexists. split; [exact Hmap|]. simpl. split; [reflexivity|].
  split; [reflexivity|].
  assert (Hevent : forall name, exists z,
             t_duration (mapEvent name resource) = of_Z z).
  { intros name. unfold mapEvent. apply mapTiming_integer.
    intros e He. destruct (lookup name (events resource)); [|discriminate].
    injection He as <-. discriminate. }
  assert (Hrequest : exists z, t_duration (mapRequestTiming resource) = of_Z z).
  { unfold mapRequestTiming. apply mapTiming_integer. intros e He.
    destruct (ts_requestStart (timestamps resource)); [|discriminate].
    destruct (lookup "response" (events resource)); [|discriminate].
    destruct (truthy (Some z)); [|discriminate].
    injection He as <-. discriminate. }
  intros t [<-|[<-|[<-|[<-|[<-|[]]]]]]; auto.
Qed.

Lemma timings_integer_after_first_witness :
  exists n first rest,
    mapResource "page" example_resource = Ok n
    /\ nr_timings n = first :: rest
    /\ exists z, t_duration (mapEvent "dns" example_resource) = of_Z z.
Proof.
  destruct (timings_integer_after_first "page" example_resource)
    as (n & first & rest & Hn & Ht & _ & Hall).
  exists n, first, rest. split; [exact Hn|]. split; [exact Ht|].
  apply Hall.
  vm_compute in Hn. injection Hn as <-.
  simpl nr_timings in Ht. injection Ht as _ <-.
  right. left. reflexivity.
Defined.

(** X5: when the request segment is materialised it ends where the
    response segment starts: its start plus its duration is the start of
    the sixth segment. *)
Theorem request_ends_at_response
        (referer : string) (resource : Resource) (requestStart : Z) (response : Event) :
  ts_requestStart (timestamps resource) = Some requestStart ->
  requestStart <> 0 ->
  lookup "response" (events resource) = Some response ->
  exists n request_segment response_segment,
    mapResource referer resource = Ok n
    /\ nth_error (nr_timings n) 4 = Some request_segment
    /\ nth_error (nr_timings n) 5 = Some response_segment
    /\ t_start request_segment = requestStart
    /\ t_duration request_segment
       = of_Z (t_start response_segment - t_start request_segment).
Proof.
  intros Hrs Hnz Hresp.
  destruct (mapResource_returns referer resource) as (d & _ & Hmap).
  do 3 eexists. split; [exact Hmap|]. simpl.
  split; [reflexivity|]. split; [reflexivity|].
  rewrite (mapRequestTiming_real resource requestStart response Hrs Hnz Hresp).
  rewrite (mapEvent_present "response" resource response Hresp).
  split; reflexivity.
Qed.

Lemma request_ends_at_response_witness :
  exists n request_segment response_segment,
    mapResource "page" example_resource = Ok n
    /\ nth_error (nr_timings n) 4 = Some request_segment
    /\ nth_error (nr_timings n) 5 = Some response_segment
    /\ t_start request_segment = 140
    /\ t_duration request_segment
       = of_Z (t_start response_segment - t_start request_segment).
Proof.
  apply (request_ends_at_response "page" example_resource 140
           {| ev_start := 150; ev_end := 200 |});
    [reflexivity | discriminate | reflexivity].
Defined.

(** ** Further properties of settings loading *)

Section SettingsExtras.

Lemma get_when_width_ok (s : value) (k : string) :
  width_ok s -> get s k = Ok (property s k).
Proof.
  unfold width_ok, property. destruct s; try discriminate; reflexivity.
Qed.

Lemma reject_x_offset (s : value) :
  width_ok s ->
  object (property s "offset") = true ->
  positiveNumber (property (property s "offset") "x") = false ->
  rejects_with s "Invalid SVG x offset".
Proof.
  intros Hw Ho Hx. apply rejects_with_of. unfold verifySettings, verify.
  rewrite (get_when_width_ok s "width" Hw); cbn [bind]; rewrite Hw; cbn [bind].
  rewrite (get_when_width_ok s "offset" Hw); cbn [bind]; rewrite Ho; cbn [bind].
  rewrite (get_in_object _ "x" Ho); cbn [bind]; rewrite Hx. reflexivity.
Qed.

Lemma reject_padding (s : value) :
  width_ok s -> offset_ok s -> barHeight_ok s ->
  positiveNumber (property s "padding") = false ->
  rejects_with s "Invalid SVG padding".
Proof.
  intros Hw (Ho & Hx) Hbh Hpad. apply rejects_with_of.
  unfold verifySettings, verify.
  rewrite (get_when_width_ok s "width" Hw); cbn [bind]; rewrite Hw; cbn [bind].
  rewrite (get_when_width_ok s "offset" Hw); cbn [bind]; rewrite Ho; cbn [bind].
  rewrite (get_in_object _ "x" Ho); cbn [bind]; rewrite Hx; cbn [bind].
  rewrite (get_when_width_ok s "barHeight" Hw); cbn [bind]; rewrite Hbh; cbn [bind].
  rewrite (get_when_width_ok s "padding" Hw); cbn [bind]; rewrite Hpad.
  reflexivity.
Qed.

Lemma reject_colours (s : value) :
  width_ok s -> offset_ok s -> barHeight_ok s -> padding_ok s ->
  array (property s "colours") = false ->
  rejects_with s "Invalid SVG colours".
Proof.
  intros Hw (Ho & Hx) Hbh Hpad Hcs. apply rejects_with_of.
  unfold verifySettings, verify.
  rewrite (get_when_width_ok s "width" Hw); cbn [bind]; rewrite Hw; cbn [bind].
  rewrite (get_when_width_ok s "offset" Hw); cbn [bind]; rewrite Ho; cbn [bind].
  rewrite (get_in_object _ "x" Ho); cbn [bind]; rewrite Hx; cbn [bind].
  rewrite (get_when_width_ok s "barHeight" Hw); cbn [bind]; rewrite Hbh; cbn [bind].
  rewrite (get_when_width_ok s "padding" Hw); cbn [bind]; rewrite Hpad; cbn [bind].
  rewrite (get_when_width_ok s "colours" Hw); cbn [bind]; rewrite Hcs.
  reflexivity.
Qed.

Lemma verifyColour_not_object (c : value) (index : nat) :
  object c = false ->
  verifyColour c index = Err (Error (indexed "Invalid SVG colour [" index)).
Proof.
  intros Ho. unfold verifyColour, verify. now rewrite Ho.
Qed.

Lemma verifyColour_bad_name (c : value) (index : nat) :
  object c = true ->
  unemptyString (property c "name") = false ->
  verifyColour c index = Err (Error (indexed "Invalid SVG colour name [" index)).
Proof.
  intros Ho Hn. unfold verifyColour, verify. rewrite Ho; cbn [bind].
  rewrite (get_in_object c _ Ho); cbn [bind]. now rewrite Hn.
Qed.

Lemma verifyColour_bad_value (c : value) (index : nat) :
  object c = true ->
  unemptyString (property c "name") = true ->
  unemptyString (property c "value") = false ->
  verifyColour c index = Err (Error (indexed "Invalid SVG colour value [" index)).
Proof.
  intros Ho Hn Hv. unfold verifyColour, verify. rewrite Ho; cbn [bind].
  rewrite !(get_in_object c _ Ho); cbn [bind]. rewrite Hn; cbn [bind].
  now rewrite Hv.
Qed.

End SettingsExtras.

(** X6: a settings object passes [verifySettings] exactly when its width,
    [offset.x], bar height and padding are positive numbers, its offset
    is an object, and its colours are an array of six objects with
    non-empty string [name], [value] and [fg]; nothing is asked of
    [offset.y]. *)
Theorem verifySettings_accepts_iff (s : value) :
  verifySettings s = Ok tt
  <-> width_ok s /\ offset_ok s /\ barHeight_ok s /\ padding_ok s
      /\ exists elements,
           property s "colours" = VArr elements
           /\ List.length elements = 6%nat
           /\ forall i c, nth_error elements i = Some c -> colour_ok c.
Proof.
  apply verifySettings_ok.
Qed.

Lemma verifySettings_accepts_iff_witness :
  verifySettings
    (settings_json (VNum 1) (VObj [("x", VNum 1)]) (VNum 1) (VNum 1)
                   (VArr (repeat good_colour 6)))
  = Ok tt.
Proof.
  apply (proj2 (verifySettings_accepts_iff _)).
  split; [reflexivity|]. split; [split; reflexivity|].
  split; [reflexivity|]. split; [reflexivity|].
  exists (repeat good_colour 6). split; [reflexivity|]. split; [reflexivity|].
  intros i c Hc. apply nth_error_In in Hc. apply repeat_spec in Hc. subst c.
  repeat split.
Defined.

(** X7: the checks run in order and the first that fails names its
    field: an [offset.x] that is not a positive number gives "Invalid SVG
    x offset", a padding that is not gives "Invalid SVG padding", and
    colours that are not an array give "Invalid SVG colours"; in each case
    loading returns no settings. *)
Theorem verifySettings_other_fields (s : value) :
  (width_ok s ->
   object (property s "offset") = true ->
   positiveNumber (property (property s "offset") "x") = false ->
   rejects_with s "Invalid SVG x offset")
  /\ (width_ok s -> offset_ok s -> barHeight_ok s ->
      positiveNumber (property s "padding") = false ->
      rejects_with s "Invalid SVG padding")
  /\ (width_ok s -> offset_ok s -> barHeight_ok s -> padding_ok s ->
      array (property s "colours") = false ->
      rejects_with s "Invalid SVG colours").
Proof.
  split; [apply reject_x_offset|split; [apply reject_padding|apply reject_colours]].
Qed.

Lemma verifySettings_other_fields_witness :
  rejects_with
    (settings_json (VNum 960) (VObj [("y", VNum 40)]) (VNum 20) (VNum 4)
                   (VArr (repeat good_colour 6)))
    "Invalid SVG x offset"
  /\ rejects_with
       (settings_json (VNum 960) good_offset (VNum 20) (VStr "4")
                      (VArr (repeat good_colour 6)))
       "Invalid SVG padding"
  /\ rejects_with
       (settings_json (VNum 960) good_offset (VNum 20) (VNum 4)
                      (VObj [("0", good_colour)]))
       "Invalid SVG colours".
Proof.
  split; [|split].
  - apply (proj1 (verifySettings_other_fields _)); reflexivity.
  - apply (proj1 (proj2 (verifySettings_other_fields _)));
      [reflexivity | split; reflexivity | reflexivity | reflexivity].
  - apply (proj2 (proj2 (verifySettings_other_fields _)));
      [reflexivity | split; reflexivity | reflexivity | reflexivity | reflexivity].
Defined.

(** X8: among six colours the first invalid one is reported, with its
    index: an entry that is not an object gives "Invalid SVG colour [i]",
    one whose name is not a non-empty string "Invalid SVG colour name
    [i]", one whose value is not "Invalid SVG colour value [i]". *)
Theorem verifySettings_colour_entries
        (s : value) (elements : list value) (i : nat) (c : value) :
  width_ok s -> offset_ok s -> barHeight_ok s -> padding_ok s ->
  property s "colours" = VArr elements ->
  List.length elements = 6%nat ->
  nth_error elements i = Some c ->
  (forall j c', (j < i)%nat -> nth_error elements j = Some c' -> colour_ok c') ->
  (object c = false -> rejects_with s (indexed "Invalid SVG colour [" i))
  /\ (object c = true ->
      unemptyString (property c "name") = false ->
      rejects_with s (indexed "Invalid SVG colour name [" i))
  /\ (object c = true ->
      unemptyString (property c "name") = true ->
      unemptyString (property c "value") = false ->
      rejects_with s (indexed "Invalid SVG colour value [" i)).
Proof.
  intros Hw Ho Hbh Hpad Hcs Hlen Hc Hbefore.
  assert (Hrun : verifySettings s = verifyColours elements 0%nat).
  { rewrite (verifySettings_colours s elements Hw Ho Hbh Hpad Hcs), Hlen.
    reflexivity. }
  split; [|split].
  - intros Hobj. apply rejects_with_of. rewrite Hrun.
    apply (verifyColours_first_failure elements 0%nat i c _ Hc Hbefore).
    now apply verifyColour_not_object.
  - intros Hobj Hn. apply rejects_with_of. rewrite Hrun.
    apply (verifyColours_first_failure elements 0%nat i c _ Hc Hbefore).
    now apply verifyColour_bad_name.
  - intros Hobj Hn Hv. apply rejects_with_of. rewrite Hrun.
    apply (verifyColours_first_failure elements 0%nat i c _ Hc Hbefore).
    now apply verifyColour_bad_value.
Qed.

Lemma verifySettings_colour_entries_witness :
  rejects_with
    (settings_json (VNum 960) good_offset (VNum 20) (VNum 4)
       (VArr [good_colour; VStr "#ff0000"; VNull; good_colour; good_colour;
              good_colour]))
    "Invalid SVG colour [1]".
Proof.
  refine (proj1 (verifySettings_colour_entries
                   (settings_json (VNum 960) good_offset (VNum 20) (VNum 4)
                      (VArr [good_colour; VStr "#ff0000"; VNull; good_colour;
                             good_colour; good_colour]))
                   [good_colour; VStr "#ff0000"; VNull; good_colour; good_colour;
                    good_colour] 1%nat (VStr "#ff0000") _ _ _ _ _ _ _ _) _);
    try reflexivity; try (split; reflexivity).
  intros [|j] c' Hj Hc'; [|lia].
  simpl in Hc'. injection Hc' as <-. repeat split.
Defined.

(** X9: a settings file that does not hold an object never loads: [null]
    makes the first property read throw a [TypeError], and a boolean, a
    number, a string or an array is rejected with "Invalid SVG width". *)
Theorem verifySettings_not_an_object (s : value) :
  object s = false ->
  s <> VUndefined ->
  (s = VNull -> verifySettings s = Err TypeError /\ getSettings s = Err TypeError)
  /\ (s <> VNull -> rejects_with s "Invalid SVG width").
Proof.
  intros Hobj Hdef. split.
  - intros ->. split; reflexivity.
  - intros Hnull. apply rejects_with_of.
    destruct s; try discriminate; try contradiction; reflexivity.
Qed.

Lemma verifySettings_not_an_object_witness :
  rejects_with (VArr [VNum 960]) "Invalid SVG width"
  /\ getSettings VNull = Err TypeError.
Proof.
  split.
  - apply (proj2 (verifySettings_not_an_object (VArr [VNum 960]) eq_refl
                    ltac:(discriminate))).
    discriminate.
  - apply (proj1 (verifySettings_not_an_object VNull eq_refl ltac:(discriminate))).
    reflexivity.
Defined.

Lemma positive_number_of (v : value) :
  positiveNumber v = true -> v = VNum (number_of v) /\ 0 < number_of v.
Proof.
  destruct v; try discriminate. simpl. intros H. split; [reflexivity | lia].
Qed.

Lemma unempty_string_of (v : value) :
  unemptyString v = true -> v = VStr (string_of v) /\ string_of v <> "".
Proof.
  destruct v; try discriminate. simpl. intros H. split; [reflexivity|].
  intros E. rewrite E in H. discriminate.
Qed.

(** X10: the settings that [getSettings] returns are the file's own: the
    width, [offset.x], bar height and padding are the positive integers
    of the file, [offset.y] is kept as it is, there are six colours each
    with the file's non-empty name, value and fg, and the derived
    [resourceHeight] and [barPadding] are [barHeight + padding] and half
    the padding rounded down. *)
Theorem getSettings_returns_file_values (raw : value) (s : Settings) :
  getSettings raw = Ok s ->
  property raw "width" = VNum (width s) /\ 0 < width s
  /\ property (property raw "offset") "x" = VNum (offset_x s) /\ 0 < offset_x s
  /\ property (property raw "offset") "y" = offset_y s
  /\ property raw "barHeight" = VNum (barHeight s) /\ 0 < barHeight s
  /\ property raw "padding" = VNum (padding s) /\ 0 < padding s
  /\ (exists elements,
        property raw "colours" = VArr elements
        /\ List.length (colours s) = 6%nat
        /\ forall i c, nth_error elements i = Some c ->
             exists colour,
               nth_error (colours s) i = Some colour
               /\ property c "name" = VStr (c_name colour) /\ c_name colour <> ""
               /\ property c "value" = VStr (c_value colour) /\ c_value colour <> ""
               /\ property c "fg" = VStr (c_fg colour) /\ c_fg colour <> "")
  /\ resourceHeight s = barHeight s + padding s
  /\ 2 * barPadding s <= padding s < 2 * barPadding s + 2.
Proof.
  unfold getSettings.
  destruct (verifySettings raw) as [[]|] eqn:Hv; cbn [bind]; [|discriminate].
  apply verifySettings_ok in Hv.
  destruct Hv as (Hw & (_ & Hx) & Hbh & Hpad & elements & Hcs & Hlen & Hcols).
  unfold width_ok, barHeight_ok, padding_ok in *.
  intros H. injection H as <-.
  cbn [width offset_x offset_y barHeight padding colours resourceHeight barPadding].
  destruct (positive_number_of _ Hw) as [Ew Pw].
  destruct (positive_number_of _ Hx) as [Ex Px].
  destruct (positive_number_of _ Hbh) as [Eb Pb].
  destruct (positive_number_of _ Hpad) as [Ep Pp].
  repeat (split; [assumption || reflexivity|]).
  split.
  - exists elements. rewrite Hcs. cbn [elements_of]. split; [reflexivity|].
    rewrite length_map. split; [exact Hlen|].
    intros i c Hc. destruct (Hcols i c Hc) as (_ & Hn & Hval & Hfg).
    exists (colour_of c). rewrite nth_error_map, Hc. split; [reflexivity|].
    unfold colour_of. cbn.
    destruct (unempty_string_of _ Hn), (unempty_string_of _ Hval),
      (unempty_string_of _ Hfg). tauto.
  - split; [reflexivity|].
    pose proof (Z.div_mod (number_of (property raw "padding")) 2 ltac:(lia)).
    pose proof (Z.mod_pos_bound (number_of (property raw "padding")) 2 ltac:(lia)).
    lia.
Qed.

Lemma getSettings_returns_file_values_witness :
  exists s, getSettings good_settings = Ok s
            /\ property good_settings "width" = VNum (width s)
            /\ 0 < width s.
Proof.
  eexists. split; [reflexivity|].
  destruct (getSettings_returns_file_values good_settings _ eq_refl)
    as (Hw & Hpos & _).
  split; [exact Hw | exact Hpos].
Defined.



(** ** Further properties of the chart geometry *)

Section GeometryExtras.

Lemma new_Array_holes {A} (len : number) (arr : sparse A) :
  new_Array len = Ok arr -> arr = repeat None (List.length arr).
Proof.
  unfold new_Array. destruct len as [q| |]; try discriminate.
  destruct (is_array_length q); [|discriminate].
  intros H. injection H as <-. now rewrite repeat_length.
Qed.

(** [getSvgTicks] is the allocation of its array and nothing more. *)
Lemma getSvgTicks_alloc (settings : Settings)
      (first : NormalizedResource) (rest : list NormalizedResource) :
  getSvgTicks settings (first :: rest) = new_Array (slot_count (first :: rest)).
Proof.
  unfold getSvgTicks, slot_count. cbv zeta.
  fold (chart_maximum (first :: rest)).
  change (nr_start first) with (chart_minimum (first :: rest)).
  match goal with
  | |- bind ?alloc _ = _ => destruct alloc as [arr|e] eqn:Halloc
  end; cbn [bind]; [|reflexivity].
  rewrite (new_Array_holes _ _ Halloc). now rewrite forEach_holes.
Qed.

Lemma fold_getMaximumValue_perm (l l' : list NormalizedResource) :
  Permutation l l' ->
  forall a, fold_left getMaximumValue l a = fold_left getMaximumValue l' a.
Proof.
  induction 1 as [|x l l' _ IH|x y l|l l' l'' _ IH1 _ IH2]; intros a; simpl.
  - reflexivity.
  - apply IH.
  - rewrite !getMaximumValue_max. f_equal. lia.
  - now rewrite IH1.
Qed.



Lemma chart_bounds_ordered (first : NormalizedResource) (rest : list NormalizedResource) :
  0 <= nr_duration first ->
  chart_minimum (first :: rest) <= chart_maximum (first :: rest).
Proof.
  intros Hd. unfold chart_maximum, chart_minimum. simpl.
  rewrite getMaximumValue_max, fold_getMaximumValue. unfold end_of.
  assert (Hge : forall l a, a <= fold_left (fun m r => Z.max m (nr_start r + nr_duration r)) l a).
  { induction l as [|x l IH]; intros a; simpl; [lia|].
    etransitivity; [|apply IH]. lia. }
  specialize (Hge rest (nr_start first + nr_duration first)). lia.
Qed.

End GeometryExtras.

(** X12: [getSvgTicks] never stores a tick.  The array it returns is made
    of empty slots only, because [forEach] skips the empty slots of the
    array that [new Array] has just made and the callback that would fill
    them never runs. *)
Theorem getSvgTicks_never_fills
        (settings : Settings) (resources : list NormalizedResource)
        (ticks : sparse Tick) :
  getSvgTicks settings resources = Ok ticks ->
  ticks = repeat None (List.length ticks).
Proof.
  destruct resources as [|first rest]; [discriminate|].
  rewrite getSvgTicks_alloc. apply new_Array_holes.
Qed.

Lemma getSvgTicks_never_fills_witness :
  exists ticks,
    getSvgTicks sample_settings [bar 100 100; bar 120 300] = Ok ticks
    /\ ticks = repeat None (List.length ticks).
Proof.
  eexists. split; [reflexivity|].
  apply (getSvgTicks_never_fills sample_settings [bar 100 100; bar 120 300]).
  reflexivity.
Defined.

(** X13: what [getSvgTicks] returns, array or error, depends on the
    first resource's start and on the resources as a collection only: not
    on the settings (width, offset, bar height and padding have no
    effect), and not on the order of the resources as long as the first
    start is the same. *)
Theorem getSvgTicks_depends_on
        (settings settings' : Settings)
        (first first' : NormalizedResource) (rest rest' : list NormalizedResource) :
  nr_start first = nr_start first' ->
  Permutation (first :: rest) (first' :: rest') ->
  getSvgTicks settings (first :: rest) = getSvgTicks settings' (first' :: rest').
Proof.
  intros Hstart Hperm. rewrite !getSvgTicks_alloc. f_equal.
  unfold slot_count, chart_maximum.
  rewrite (fold_getMaximumValue_perm _ _ Hperm 0).
  simpl chart_minimum. now rewrite Hstart.
Qed.

Lemma getSvgTicks_depends_on_witness :
  getSvgTicks sample_settings [bar 100 100; bar 120 300; bar 100 50]
  = getSvgTicks
      {| width := 1; offset_x := 500; offset_y := VNull; barHeight := 3;
         padding := 7; colours := []; resourceHeight := 10; barPadding := 3 |}
      [bar 100 50; bar 100 100; bar 120 300].
Proof.
  apply getSvgTicks_depends_on; [reflexivity|].
  apply Permutation_sym, (Permutation_cons_app [bar 100 100; bar 120 300] []).
  rewrite app_nil_r. apply Permutation_refl.
Defined.



(** X15: when the first resource's duration is not negative,
    [getSvgTicks] returns an array exactly when some resource ends after
    the first one starts (or the first start is negative), and otherwise
    throws a [RangeError]: these are the only two outcomes. *)
Theorem getSvgTicks_outcomes (settings : Settings)
        (first : NormalizedResource) (rest : list NormalizedResource) :
  0 <= nr_duration first ->
  ((exists ticks, getSvgTicks settings (first :: rest) = Ok ticks)
   <-> nr_start first < chart_maximum (first :: rest))
  /\ (getSvgTicks settings (first :: rest) = Err RangeError
      <-> chart_maximum (first :: rest) = nr_start first).
Proof.
  intros Hd. pose proof (chart_bounds_ordered first rest Hd) as Hle.
  simpl chart_minimum in Hle.
  destruct (Z_le_lt_eq_dec _ _ Hle) as [Hlt|Heq].
  - pose proof (getSvgTicks_spanning settings first rest Hlt) as Hok.
    split; split; intros H.
    + exact Hlt.
    + eexists. exact Hok.
    + rewrite Hok in H. discriminate.
    + simpl chart_minimum in Hlt. lia.
  - pose proof (getSvgTicks_flat settings first rest (eq_sym Heq)) as Herr.
    split; split; intros H.
    + destruct H as [ticks H]. rewrite Herr in H. discriminate.
    + lia.
    + now symmetry.
    + exact Herr.
Qed.

Lemma getSvgTicks_outcomes_witness :
  (exists ticks, getSvgTicks sample_settings [bar 5 0; bar 3 4] = Ok ticks)
  /\ getSvgTicks sample_settings [bar 5 0; bar 3 2] = Err RangeError.
Proof.
  split.
  - apply (proj1 (getSvgTicks_outcomes sample_settings (bar 5 0) [bar 3 4]
                    ltac:(simpl; lia))).
    reflexivity.
  - apply (proj2 (getSvgTicks_outcomes sample_settings (bar 5 0) [bar 3 2]
                    ltac:(simpl; lia))).
    reflexivity.
Defined.

(** ** Further properties of the entry points *)

Section BeaconFacts.

Lemma as_events_json (es : list (string * Event)) :
  as_events (events_json es) = Some es.
Proof.
  induction es as [|[k ev] es IH]; [reflexivity|].
  change (events_json ((k, ev) :: es)) with ((k, event_json ev) :: events_json es).
  cbn [as_events]. rewrite IH. now destruct ev.
Qed.

(** The typed view reads back a resource from the object that carries
    it. *)
Lemma as_resource_json (r : Resource) : as_resource (resource_json r) = Some r.
Proof.
  destruct r as [n t [s f [q|]] es]; unfold resource_json, as_resource;
    cbn [field lookup String.eqb Ascii.eqb Bool.eqb as_string as_timestamps
         timestamps_json as_Z res_name res_type timestamps events ts_start
         ts_fetchStart ts_requestStart];
    now rewrite as_events_json.
Qed.

Lemma traverse_resources (referer : string) (resources : list Resource) :
  exists normalized,
    Forall2 (fun r n => mapResource referer r = Ok n) resources normalized
    /\ traverse
         (fun entry =>
            match as_resource entry with
            | Some resource => mapResource referer resource
            | None => Err Unmodelled
            end)
         (List.map resource_json resources)
       = Ok normalized.
Proof.
  induction resources as [|r rest (ns & Hall & Hns)]; cbn [List.map traverse].
  - exists []. split; [constructor | reflexivity].
  - destruct (mapResource_returns referer r) as (d & _ & Hr).
    rewrite as_resource_json, Hr. cbn [bind]. rewrite Hns. cbn [bind].
    eexists. split; [|reflexivity]. constructor; [exact Hr | exact Hall].
Qed.

Lemma mapi_undefined {A} (f : A -> nat -> unit) (l : list A) :
  forall index, mapi f l index = repeat tt (List.length l).
Proof.
  induction l as [|x l IH]; intros index; simpl; [reflexivity|].
  destruct (f x index). now rewrite IH.
Qed.

(** The end of a normalized resource is [fetchStart] or the end of one of
    its events, and is not before [fetchStart]. *)
Lemma mapResource_end (referer : string) (r : Resource) (n : NormalizedResource) :
  mapResource referer r = Ok n ->
  nr_start n = ts_start (timestamps r)
  /\ ts_fetchStart (timestamps r) <= end_of n
  /\ (end_of n = ts_fetchStart (timestamps r)
      \/ exists k e, lookup k (events r) = Some e /\ end_of n = ev_end e).
Proof.
  intros Hn.
  destruct (mapResource_returns referer r) as (d & Hd & Hmap).
  rewrite Hmap in Hn. injection Hn as <-. unfold end_of. simpl.
  destruct (reduce_duration_spec r (Object_keys (events r))
              (fun k H => proj1 (lookup_in_keys _ k) H)
              (ts_fetchStart (timestamps r) - ts_start (timestamps r)))
    as (d' & Hd' & Hle & _ & Hwit).
  rewrite Hd in Hd'. injection Hd' as <-.
  split; [reflexivity|]. split; [lia|].
  destruct Hwit as [->|(k & e & _ & He & ->)]; [left; lia|].
  right. exists k, e. split; [exact He | lia].
Qed.

Lemma latest_end_bounded (bound : Z) (first : NormalizedResource)
      (rest : list NormalizedResource) :
  Forall (fun n => end_of n <= bound) (first :: rest) ->
  end_of first <= latest_end first rest <= bound.
Proof.
  intros Hall. inversion Hall as [|? ? Hfirst Hrest]; subst.
  unfold latest_end. generalize (end_of first) Hfirst. clear Hall Hfirst.
  induction Hrest as [|x l Hx _ IH]; intros a Ha; simpl; [lia|].
  specialize (IH (Z.max a (end_of x)) ltac:(lia)). lia.
Qed.

End BeaconFacts.

(** X16: an empty [restiming] array is an array, so the fast path is not
    taken, and [map] throws a [TypeError] when the geometry reads the
    first resource; the template is not called. *)
Theorem map_empty_restiming
        (template : RenderModel -> result string) (settings : Settings)
        (data : value) (referer : string) :
  get data "restiming" = Ok (VArr []) ->
  map template settings data referer = Err TypeError
  /\ customiseSvgSettings settings [] = Err TypeError.
Proof.
  intros Hget. unfold map. rewrite Hget. split; reflexivity.
Qed.

Lemma map_empty_restiming_witness :
  map (fun _ => Ok "rendered") sample_settings (VObj [("restiming", VArr [])])
      "http://example.com/"
  = Err TypeError.
Proof.
  apply (map_empty_restiming _ sample_settings (VObj [("restiming", VArr [])])).
  reflexivity.
Defined.

(** X17: [map] is the composition of its stages.  For a beacon whose
    [restiming] array holds raw resource events, every event is
    normalized by [mapResource], in order and with the referer as page,
    the geometry is computed from the normalized list, and the result of
    [map] is the template's result on the settings, the chart height, an
    array of empty tick slots, one [undefined] per resource, and the
    normalized list as details; if the geometry throws, [map] throws the
    same error. *)
Theorem map_pipeline
        (template : RenderModel -> result string) (settings : Settings)
        (data : value) (referer : string) (resources : list Resource) :
  get data "restiming" = Ok (VArr (List.map resource_json resources)) ->
  exists normalized,
    Forall2 (fun r n => mapResource referer r = Ok n /\ nr_page n = referer)
            resources normalized
    /\ match getSvgTicks settings normalized with
       | Ok ticks =>
           ticks = repeat None (List.length ticks)
           /\ map template settings data referer
              = template
                  {| svg := {| svg_settings := settings;
                               svg_height := getSvgHeight settings normalized;
                               svg_ticks := ticks;
                               svg_resources :=
                                 repeat tt (List.length resources) |};
                     details := normalized |}
       | Err e => map template settings data referer = Err e
       end.
Proof.
  intros Hget.
  destruct (traverse_resources referer resources) as (ns & Hall & Hns).
  exists ns. split.
  - clear Hns Hget.
    induction Hall as [|r n rs ns' Hr _ IH]; [constructor|].
    constructor; [|exact IH]. split; [exact Hr|].
    destruct (mapResource_returns referer r) as (d & _ & Hmap).
    rewrite Hmap in Hr. now injection Hr as <-.
  - unfold map. rewrite Hget. cbn [bind Array_isArray negb elements_of].
    rewrite Hns. cbn [bind]. unfold customiseSvgSettings.
    destruct (getSvgTicks settings ns) as [ticks|e] eqn:Hticks; cbn [bind];
      [|reflexivity].
    split; [destruct ns; [discriminate|]; rewrite getSvgTicks_alloc in Hticks;
            exact (new_Array_holes _ _ Hticks)|].
    rewrite mapi_undefined, (Forall2_length Hall). reflexivity.
Qed.

Lemma map_pipeline_witness :
  exists normalized,
    Forall2 (fun r n => mapResource "page" r = Ok n /\ nr_page n = "page")
            [example_resource] normalized
    /\ match getSvgTicks sample_settings normalized with
       | Ok ticks =>
           ticks = repeat None (List.length ticks)
           /\ map (fun _ => Ok "rendered") sample_settings example_payload "page"
              = Ok "rendered"
       | Err e =>
           map (fun _ => Ok "rendered") sample_settings example_payload "page"
           = Err e
       end.
Proof.
  apply (map_pipeline (fun _ => Ok "rendered") sample_settings example_payload
                      "page" [example_resource]).
  reflexivity.
Defined.

(** X18: a beacon in which nothing ends after its first resource starts
    makes [map] throw a [RangeError]: when the first start is not
    negative and not after its [fetchStart], and no [fetchStart] and no
    event end of any resource is later than that start, the chart has no
    span and the template is never called.  A beacon with a single
    resource that has no events and whose [fetchStart] is its start is
    the simplest case. *)
Theorem map_flat_beacon
        (template : RenderModel -> result string) (settings : Settings)
        (data : value) (referer : string)
        (first : Resource) (rest : list Resource) :
  get data "restiming" = Ok (VArr (List.map resource_json (first :: rest))) ->
  0 <= ts_start (timestamps first) ->
  ts_start (timestamps first) <= ts_fetchStart (timestamps first) ->
  Forall (fun r =>
            ts_fetchStart (timestamps r) <= ts_start (timestamps first)
            /\ forall k e, lookup k (events r) = Some e ->
                           ev_end e <= ts_start (timestamps first))
         (first :: rest) ->
  map template settings data referer = Err RangeError.
Proof.
  intros Hget Hpos Hfetch Hall.
  destruct (traverse_resources referer (first :: rest)) as (ns & Hmapped & Hns).
  assert (Hends : Forall (fun n => end_of n <= ts_start (timestamps first)) ns).
  { clear Hns Hget. revert Hall.
    induction Hmapped as [|r n rs ns' Hr _ IH]; intros Hall; [constructor|].
    inversion Hall as [|? ? [Hf He] Hrest]; subst.
    constructor; [|now apply IH].
    destruct (mapResource_end referer r n Hr) as (_ & _ & [->|(k & e & Hk & ->)]);
      [exact Hf | now apply (He k e)]. }
  inversion Hmapped as [|r n0 rs ns' Hfirst Hrest]; subst.
  destruct (mapResource_end referer first n0 Hfirst) as (Hstart & Hge & _).
  pose proof (latest_end_bounded _ n0 ns' Hends) as Hlatest.
  assert (Hflat : chart_maximum (n0 :: ns') = chart_minimum (n0 :: ns')).
  { rewrite chart_maximum_spec. simpl chart_minimum. lia. }
  unfold map. rewrite Hget. cbn [bind Array_isArray negb elements_of].
  rewrite Hns. cbn [bind]. unfold customiseSvgSettings.
  now rewrite (getSvgTicks_flat settings n0 ns' Hflat).
Qed.

Lemma map_flat_beacon_witness :
  map (fun _ => Ok "rendered") sample_settings
      (VObj [("restiming",
              VArr [resource_json (instant_resource "http://example.com/" "html" 7)])])
      "http://example.com/"
  = Err RangeError.
Proof.
  apply (map_flat_beacon _ sample_settings _ "http://example.com/"
           (instant_resource "http://example.com/" "html" 7) []).
  - reflexivity.
  - simpl. lia.
  - simpl. lia.
  - constructor; [|constructor]. split; [simpl; lia|].
    intros k e Hk. discriminate.
Defined.

(** X19: [initialise] hands out a mapper only for settings that pass
    validation.  With invalid settings it throws the error of
    [verifySettings] and no beacon is ever mapped; with valid ones the
    mapper is [map] bound to the template and to the validated settings,
    and it answers the empty string to a beacon without a [restiming]
    array. *)
Theorem initialise_outcomes
        (template : RenderModel -> result string) (loaded : value) :
  (forall e, initialise template loaded = Err e <-> verifySettings loaded = Err e)
  /\ ((exists mapper, initialise template loaded = Ok mapper)
      <-> verifySettings loaded = Ok tt)
  /\ (forall mapper,
        initialise template loaded = Ok mapper ->
        exists settings,
          getSettings loaded = Ok settings
          /\ mapper = map template settings
          /\ forall data referer restiming,
               get data "restiming" = Ok restiming ->
               Array_isArray restiming = false ->
               mapper data referer = Ok "").
Proof.
  unfold initialise, getSettings.
  destruct (verifySettings loaded) as [[]|e0]; cbn [bind].
  - split; [|split].
    + intros e. split; discriminate.
    + split; [reflexivity | intros _; eexists; reflexivity].
    + intros mapper H. injection H as <-.
      eexists. split; [reflexivity|]. split; [reflexivity|].
      intros data referer restiming Hget Hnot.
      unfold map. rewrite Hget. cbn [bind]. now rewrite Hnot.
  - split; [|split].
    + intros e. split; intros H; injection H as <-; reflexivity.
    + split; [intros [mapper H]; discriminate | discriminate].
    + intros mapper H. discriminate.
Qed.

Lemma initialise_outcomes_witness :
  initialise failing_template
    (settings_json (VNum 960) good_offset (VNum 20) (VNum 0)
                   (VArr (repeat good_colour 6)))
  = Err (Error "Invalid SVG padding")
  /\ exists mapper,
       initialise failing_template good_settings = Ok mapper
       /\ mapper (VObj [("restiming", VNull)]) "http://example.com/" = Ok "".
Proof.
  split.
  - apply (proj1 (initialise_outcomes failing_template _)). reflexivity.
  - destruct (proj2 (proj1 (proj2 (initialise_outcomes failing_template
                                     good_settings))) eq_refl)
      as [mapper Hmapper].
    exists mapper. split; [exact Hmapper|].
    destruct (proj2 (proj2 (initialise_outcomes failing_template good_settings))
                mapper Hmapper) as (settings & _ & _ & Hempty).
    apply (Hempty _ _ VNull); reflexivity.
Defined.
